(** * The grasp planning service of the household objects database node

    A shallow embedding of
    [household_objects_database/nodes/objects_database_node.cpp]:
    the hand description lookup ([HandDescription]), the grasp filter
    ([pruneGraspList]), the pose product ([multiplyPoses]) and the
    grasp planning callback ([graspPlanningCB]).

    - A C++ [double] is an IEEE 754 binary64 value, [spec_float]; only
      comparisons are made on it here, with their behaviour on NaN.
    - The tf library, the parameter server, and the objects database
      are outside this file of the repository; they are taken as
      interfaces ([TF], [ParamServer], [ObjectsDatabase]).
    - Exceptions, the abort of a failed [ROS_ASSERT] (taken as compiled
      in) and reads outside a vector are outcomes of their own
      ([Outcome]).
    - The [ROS_INFO], [ROS_WARN] and [ROS_ERROR] calls write to the log
      only and are left out. *)

From Stdlib Require Import ZArith String List Bool Lia PeanoNat.
From Stdlib Require Import SpecFloat.
From Stdlib Require Import DecimalString DecimalZ.
Import ListNotations.
Local Open Scope string_scope.
Local Open Scope nat_scope.
Local Open Scope list_scope.

(** ** C++ doubles *)

Module Double.

Definition double := spec_float.

(** The comparison operators of C++ on doubles: every comparison
    with a NaN is false. *)
Definition lt (a b : double) : bool := SFltb a b.

Definition ge (a b : double) : bool :=
  match SFcompare a b with
  | Some Gt | Some Eq => true
  | _ => false
  end.

Definition le (a b : double) : bool := SFleb a b.

Definition is_nan (a : double) : bool :=
  match a with S754_nan => true | _ => false end.

(** [std::max(a, b)] is [(a < b) ? b : a] and [std::min(a, b)] is
    [(b < a) ? b : a]. *)
Definition std_max (a b : double) : double := if lt a b then b else a.
Definition std_min (a b : double) : double := if lt b a then b else a.

(** The literals of the source, as the binary64 value nearest to the
    decimal: sign, 53-bit mantissa, exponent. *)
Definition d_0_0 : double := S754_zero false.
Definition d_1_5707 : double := S754_finite false 7073803934710838 (-52).
Definition d_m1_5707 : double := S754_finite true 7073803934710838 (-52).
Definition d_m40 : double := S754_finite true 5629499534213120 (-47).
Definition d_50 : double := S754_finite false 7036874417766400 (-47).
Definition d_100 : double := S754_finite false 7036874417766400 (-46).
Definition d_0_15 : double := S754_finite false 5404319552844595 (-55).
Definition d_0_07 : double := S754_finite false 5044031582654956 (-56).

(** [nearest num den m e]: the mantissa [m] at exponent [-e] is within
    half a unit in the last place of the decimal [num/den], and has
    53 bits. *)
Definition nearest (num den : Z) (m : positive) (e : Z) : Prop :=
  (2 * Z.abs (Z.pos m * den - num * 2 ^ e) <= den)%Z
  /\ (2 ^ 52 <= Z.pos m < 2 ^ 53)%Z.

End Double.
Import Double.

(** ** Outcomes that are not a return *)

Inductive Exception :=
| AssertionFailure   (* a failed ROS_ASSERT aborts the node *)
| XmlRpcException    (* thrown by XmlRpc::XmlRpcValue *)
| StdOutOfRange      (* thrown by std::vector::at *)
| OutOfBounds.       (* operator[] outside the vector: undefined *)

Inductive Outcome (A : Type) :=
| Return (a : A)
| Raise (e : Exception).
Arguments Return {A} a.
Arguments Raise {A} e.

Definition bind {A B} (m : Outcome A) (k : A -> Outcome B) : Outcome B :=
  match m with
  | Return a => k a
  | Raise e => Raise e
  end.

Notation "x <- m ;; k" := (bind m (fun x => k))
  (at level 61, m at next level, right associativity).

(** ** std::vector *)

Module Vector.
Section Ops.
Context {A : Type}.

(** [v.resize(n, fill)] *)
Definition resize (n : nat) (fill : A) (v : list A) : list A :=
  firstn n v ++ repeat fill (n - length v).

(** [v[i]], read *)
Definition index (v : list A) (i : nat) : Outcome A :=
  match nth_error v i with
  | Some x => Return x
  | None => Raise OutOfBounds
  end.

(** [v.at(i)] *)
Definition at_ (v : list A) (i : nat) : Outcome A :=
  match nth_error v i with
  | Some x => Return x
  | None => Raise StdOutOfRange
  end.

(** [v[i] = x] *)
Definition assign (v : list A) (i : nat) (x : A) : Outcome (list A) :=
  if i <? length v
  then Return (firstn i v ++ x :: skipn (S i) v)
  else Raise OutOfBounds.
End Ops.
End Vector.

(** ** The parameter server and XmlRpc values

    [XmlRpc::XmlRpcValue] belongs to the XmlRpc++ library: [size()] is
    defined on strings, binary data, arrays and structs and throws on
    every other type; [operator[]] throws unless the value is an array
    (an unset value becomes one); the conversion to [std::string&]
    throws unless the value is a string (an unset value becomes the
    empty one). *)

#[warnings="-register-all"]
Inductive XmlRpcValue :=
| TypeInvalid
| TypeScalar                       (* boolean, int, double, date *)
| TypeString (s : string)
| TypeBase64 (bytes : nat)
| TypeArray (l : list XmlRpcValue)
| TypeStruct (members : nat).

Definition xml_size (v : XmlRpcValue) : Outcome nat :=
  match v with
  | TypeString s => Return (String.length s)
  | TypeBase64 n => Return n
  | TypeArray l => Return (length l)
  | TypeStruct n => Return n
  | _ => Raise XmlRpcException
  end.

Definition xml_index (v : XmlRpcValue) (i : nat) : Outcome XmlRpcValue :=
  match v with
  | TypeArray l => Return (nth i l TypeInvalid)
  | TypeInvalid => Return TypeInvalid
  | _ => Raise XmlRpcException
  end.

Definition xml_string (v : XmlRpcValue) : Outcome string :=
  match v with
  | TypeString s => Return s
  | TypeInvalid => Return ""
  | _ => Raise XmlRpcException
  end.

(** [ros::NodeHandle::getParamCached]: the value stored under a name,
    if there is one. *)
Definition ParamServer := string -> option XmlRpcValue.

(** [getParamCached(name, std::string&)] succeeds on a string value
    only, and leaves its argument alone otherwise. *)
Definition getParamCached_string (ps : ParamServer) (name : string)
  : option string :=
  match ps name with
  | Some (TypeString s) => Some s
  | _ => None
  end.

(** *** class HandDescription *)

Definition getStringParam (ps : ParamServer) (name : string) : string :=
  let value := "" in
  match getParamCached_string ps name with
  | Some s => s
  | None => value
  end.

(** The loop [for (i = 0; i < list.size(); i++)], with [n] iterations
    left. *)
Fixpoint getVectorParam_loop (list_ : XmlRpcValue) (n i : nat)
    (values : list string) : Outcome (list string) :=
  match n with
  | O => Return values
  | S n' =>
      e <- xml_index list_ i ;;
      s <- xml_string e ;;
      getVectorParam_loop list_ n' (S i) (values ++ [s])
  end.

Definition getVectorParam (ps : ParamServer) (name : string)
  : Outcome (list string) :=
  let list_ := match ps name with
               | Some v => v
               | None => TypeInvalid
               end in
  n <- xml_size list_ ;;
  getVectorParam_loop list_ n 0 [].

Definition handDatabaseName (ps : ParamServer) (arm_name : string) : string :=
  getStringParam ps
    ("/hand_description/" ++ arm_name ++ "/hand_database_name")%string.

Definition handJointNames (ps : ParamServer) (arm_name : string)
  : Outcome (list string) :=
  getVectorParam ps
    ("/hand_description/" ++ arm_name ++ "/hand_joints")%string.

(** ** The tf library

    Poses, transforms, their product, and the transform listener. The
    listener's buffer is filled by another thread, so a lookup is a
    step on the listener: it answers and leaves the listener in its
    next state. A [tf::TransformException] is the answer [None]. *)

Definition Time := Z.
Definition ros_Time (t : Z) : Time := t.

Class TF := {
  Pose : Type;                 (* geometry_msgs::Pose *)
  Transform : Type;            (* tf::Transform *)
  poseMsgToTF : Pose -> Transform;
  poseTFToMsg : Transform -> Pose;
  mul : Transform -> Transform -> Transform;   (* operator* *)
  TransformListener : Type;
  lookupTransform :
    TransformListener -> string -> string -> Time ->
    option Transform * TransformListener
}.

(** ** The messages *)

Inductive GraspPlanningErrorCode := SUCCESS | OTHER_ERROR.

Record JointState := {
  name : list string;
  position : list double;
  effort : list double
}.

Section Node.

Context {tf : TF}.

Record Grasp := {
  pre_grasp_posture : JointState;
  grasp_posture : JointState;
  grasp_pose : Pose;
  success_probability : double;
  desired_approach_distance : double;
  min_approach_distance : double
}.

Record PoseStamped := {
  frame_id : string;     (* header.frame_id *)
  pose : Pose
}.

Record DatabaseModelPose := {
  model_id : Z;
  model_pose : PoseStamped   (* the field pose *)
}.

Record GraspableObject := {
  reference_frame_id : string;
  potential_models : list DatabaseModelPose
}.

Record Request := {
  arm_name : string;
  target : GraspableObject
}.

Record Response := {
  grasps : list Grasp;
  error_code : GraspPlanningErrorCode
}.

(** [DatabaseGrasp], the fields this file reads. *)
Record DatabaseGrasp := {
  quality_ : double;
  scaled_quality_ : double;
  pre_grasp_posture_ : list double;    (* .get().joint_angles_ *)
  final_grasp_posture_ : list double;  (* .get().joint_angles_ *)
  final_grasp_pose_ : Pose;            (* .get().pose_ *)
  table_clearance_ : double
}.

(** [ObjectsDatabase::getClusterRepGrasps], declared in
    [objects_database.h] and taken as given: the grasps of a model for
    a hand, or [None] where the C++ returns false. *)
Record ObjectsDatabase := {
  getClusterRepGrasps : Z -> string -> option (list DatabaseGrasp)
}.

Record ObjectsDatabaseNode := {
  database_ : option ObjectsDatabase;   (* NULL when not connected *)
  prune_gripper_opening_ : double;
  prune_table_clearance_ : double
}.

(** *** pruneGraspList

    The iterator [prune_it] splits the vector into the elements
    before it ([kept]) and those from it on ([rest]); [erase] drops
    the head of [rest], [prune_it++] moves it to [kept]. The counter
    [pruned] goes to the log line only. *)
Fixpoint prune_loop (kept rest : list DatabaseGrasp) (pruned : Z)
  : list DatabaseGrasp * Z :=
  match rest with
  | [] => (kept, pruned)
  | g :: rest' =>
      if ge (quality_ g) d_m40
      then prune_loop kept rest' (pruned + 1)
      else prune_loop (kept ++ [g]) rest' pruned
  end.

Definition pruneGraspList (grasps : list DatabaseGrasp)
    (gripper_threshold table_clearance_threshold : double)
  : list DatabaseGrasp * Z :=
  prune_loop [] grasps 0.

(** *** multiplyPoses *)
Definition multiplyPoses (p1 p2 : Pose) : Pose :=
  let t1 := poseMsgToTF p1 in
  let t2 := poseMsgToTF p2 in
  let t2 := mul t1 t2 in
  poseTFToMsg t2.

(** *** graspPlanningCB, the body of the conversion loop *)

(** The seven positions of the Schunk hand, as the source assigns
    them after [position.resize(7)]; the same lines are written for
    the pre-grasp and for the grasp posture. *)
Definition schunk_positions (joint_angles_ : list double)
  : Outcome (list double) :=
  let position := Vector.resize 7 d_0_0 [] in
  a <- Vector.index joint_angles_ 0 ;;
  position <- Vector.assign position 0 (std_min d_1_5707 (std_max a d_0_0)) ;;
  a <- Vector.index joint_angles_ 6 ;;
  position <- Vector.assign position 1 (std_min d_1_5707 (std_max a d_m1_5707)) ;;
  a <- Vector.index joint_angles_ 7 ;;
  position <- Vector.assign position 2 (std_min d_1_5707 (std_max a d_m1_5707)) ;;
  a <- Vector.index joint_angles_ 1 ;;
  position <- Vector.assign position 3 (std_min d_1_5707 (std_max a d_m1_5707)) ;;
  a <- Vector.index joint_angles_ 2 ;;
  position <- Vector.assign position 4 (std_min d_1_5707 (std_max a d_m1_5707)) ;;
  a <- Vector.index joint_angles_ 3 ;;
  position <- Vector.assign position 5 (std_min d_1_5707 (std_max a d_m1_5707)) ;;
  a <- Vector.index joint_angles_ 4 ;;
  Vector.assign position 6 (std_min d_1_5707 (std_max a d_m1_5707)).

(** The names and positions of the two postures of a grasp, by the
    hand: [None] stands for [continue]. The first component is the
    pre-grasp posture, the second the grasp posture; the efforts are
    set after the branches. *)
Definition adapt_postures (hand_id : string) (joint_names : list string)
    (it : DatabaseGrasp) : Outcome (option (JointState * JointState)) :=
  if (hand_id =? "Schunk")%string then
    if negb (length joint_names =? 7) then Return None
    else if negb (length (final_grasp_posture_ it) =? 8) then Return None
    else
      pre <- schunk_positions (pre_grasp_posture_ it) ;;
      fin <- schunk_positions (final_grasp_posture_ it) ;;
      Return (Some ({| name := joint_names; position := pre; effort := [] |},
                    {| name := joint_names; position := fin; effort := [] |}))
  else if negb (hand_id =? "WILLOW_GRIPPER_2010")%string then
    if negb (length joint_names =? length (final_grasp_posture_ it))
    then Return None
    else
      Return (Some ({| name := joint_names;
                       position := pre_grasp_posture_ it; effort := [] |},
                    {| name := joint_names;
                       position := final_grasp_posture_ it; effort := [] |}))
  else
    if negb (length joint_names =? 4)
       || negb (length (final_grasp_posture_ it) =? 1)
    then Return None
    else
      a <- Vector.at_ (pre_grasp_posture_ it) 0 ;;
      let pre := Vector.resize (length joint_names) a [] in
      b <- Vector.at_ (final_grasp_posture_ it) 0 ;;
      let fin := Vector.resize (length joint_names) b [] in
      Return (Some ({| name := joint_names; position := pre; effort := [] |},
                    {| name := joint_names; position := fin; effort := [] |})).

(** The pose of the grasp: into the frame of the detection, then into
    the reference frame of the object. [None] when the lookup threw. *)
Definition compose_grasp_pose (request_pose : PoseStamped)
    (reference_frame_id : string) (local_pose : Pose)
    (listener_ : TransformListener) : option Pose * TransformListener :=
  let grasp_pose := local_pose in
  let grasp_pose := multiplyPoses (pose request_pose) grasp_pose in
  if negb (frame_id request_pose =? reference_frame_id)%string then
    match lookupTransform listener_ reference_frame_id
            (frame_id request_pose) (ros_Time 0) with
    | (None, listener_) => (None, listener_)
    | (Some ref_trans, listener_) =>
        let ref_pose := poseTFToMsg ref_trans in
        (Some (multiplyPoses ref_pose grasp_pose), listener_)
    end
  else (Some grasp_pose, listener_).

(** What one turn of the loop does to the response. *)
Inductive Step :=
| Continue                 (* continue: nothing is pushed *)
| Push (grasp : Grasp)     (* response.grasps.push_back(grasp) *)
| Fail.                    (* OTHER_ERROR and return *)

Definition convert_grasp (ps : ParamServer) (request : Request)
    (model : DatabaseModelPose) (hand_id : string) (it : DatabaseGrasp)
    (listener_ : TransformListener) : Outcome Step * TransformListener :=
  if negb (length (final_grasp_posture_ it)
           =? length (pre_grasp_posture_ it))
  then (Raise AssertionFailure, listener_)
  else
    match handJointNames ps (arm_name request) with
    | Raise e => (Raise e, listener_)
    | Return joint_names =>
        match adapt_postures hand_id joint_names it with
        | Raise e => (Raise e, listener_)
        | Return None => (Return Continue, listener_)
        | Return (Some (pre, fin)) =>
            let fin := {| name := name fin; position := position fin;
                          effort := Vector.resize (length joint_names)
                                      d_50 (effort fin) |} in
            let pre := {| name := name pre; position := position pre;
                          effort := Vector.resize (length joint_names)
                                      d_100 (effort pre) |} in
            match compose_grasp_pose (model_pose model)
                    (reference_frame_id (target request))
                    (final_grasp_pose_ it) listener_ with
            | (None, listener_) => (Return Fail, listener_)
            | (Some p, listener_) =>
                (Return (Push {| pre_grasp_posture := pre;
                                 grasp_posture := fin;
                                 grasp_pose := p;
                                 success_probability := scaled_quality_ it;
                                 desired_approach_distance := d_0_15;
                                 min_approach_distance := d_0_07 |}),
                 listener_)
            end
        end
    end.

(** The loop over the pruned grasps, with the grasps pushed so far. *)
Fixpoint convert_loop (ps : ParamServer) (request : Request)
    (model : DatabaseModelPose) (hand_id : string)
    (its : list DatabaseGrasp) (pushed : list Grasp)
    (listener_ : TransformListener)
  : Outcome Response * TransformListener :=
  match its with
  | [] => (Return {| grasps := pushed; error_code := SUCCESS |}, listener_)
  | it :: its' =>
      match convert_grasp ps request model hand_id it listener_ with
      | (Raise e, listener_) => (Raise e, listener_)
      | (Return Continue, listener_) =>
          convert_loop ps request model hand_id its' pushed listener_
      | (Return (Push grasp), listener_) =>
          convert_loop ps request model hand_id its' (pushed ++ [grasp])
            listener_
      | (Return Fail, listener_) =>
          (Return {| grasps := pushed; error_code := OTHER_ERROR |},
           listener_)
      end
  end.

(** *** graspPlanningCB *)
Definition graspPlanningCB (node : ObjectsDatabaseNode) (ps : ParamServer)
    (request : Request) (listener_ : TransformListener)
  : Outcome Response * TransformListener :=
  match database_ node with
  | None => (Return {| grasps := []; error_code := OTHER_ERROR |}, listener_)
  | Some database =>
      match potential_models (target request) with
      | [] =>
          (Return {| grasps := []; error_code := OTHER_ERROR |}, listener_)
      | model :: _ =>
          let model_id := model_id model in
          let hand_id := handDatabaseName ps (arm_name request) in
          match getClusterRepGrasps database model_id hand_id with
          | None =>
              (Return {| grasps := []; error_code := OTHER_ERROR |},
               listener_)
          | Some grasps =>
              let grasps :=
                fst (pruneGraspList grasps (prune_gripper_opening_ node)
                       (prune_table_clearance_ node)) in
              convert_loop ps request model hand_id grasps [] listener_
          end
      end
  end.

End Node.

(** ** The words of the specification *)

(** The outcomes of a request the specification names, each a kind
    of its own. *)
Inductive Status :=
| Success
| InvalidRequest
| ConfigurationMissing
| CatalogUnavailable
| TransformUnavailable.

(** A value clamped into [[lo, hi]]: inside the interval, the value
    itself when it lies inside, the nearer bound when it lies
    outside. *)
Definition clamped_into (lo hi x r : double) : Prop :=
  le lo r = true /\ le r hi = true
  /\ (le lo x = true -> le x hi = true -> r = x)
  /\ (lt x lo = true -> r = lo)
  /\ (lt hi x = true -> r = hi).

(** [clamp], as a function. *)
Definition clamp (x lo hi : double) : double :=
  if lt x lo then lo else if lt hi x then hi else x.

(** [r] is [x] clamped into [[lo, hi]], in both readings. *)
Definition clamp_of (lo hi x r : double) : Prop :=
  clamped_into lo hi x r /\ (is_nan x = false -> r = clamp x lo hi).

(** The records the filter keeps. *)
Definition below_threshold {tf : TF} (g : DatabaseGrasp) : bool :=
  negb (ge (quality_ g) d_m40).

(** The layout of the underactuated hand: output position, raw index,
    lower bound. *)
Definition schunk_layout : list (nat * nat * double) :=
  [ (0, 0, d_0_0); (1, 6, d_m1_5707); (2, 7, d_m1_5707); (3, 1, d_m1_5707);
    (4, 2, d_m1_5707); (5, 3, d_m1_5707); (6, 4, d_m1_5707) ].

(** [Subsequence l1 l2]: [l1] is [l2] with some elements left out,
    the others in their order. *)
Inductive Subsequence {A : Type} : list A -> list A -> Prop :=
| Subsequence_nil : Subsequence [] []
| Subsequence_keep x l1 l2 : Subsequence l1 l2 -> Subsequence (x :: l1) (x :: l2)
| Subsequence_drop x l1 l2 : Subsequence l1 l2 -> Subsequence l1 (x :: l2).

(** ** A symbolic instance of tf, and sample data

    A pose is the word of the transforms it is the product of, the
    product is concatenation; the listener holds the answers it will
    give, one for each lookup, and fails when none is left. *)

Module Demo.

Definition symbolic : TF := {|
  Pose := list string;
  Transform := list string;
  poseMsgToTF := fun p => p;
  poseTFToMsg := fun t => t;
  mul := fun t1 t2 => t1 ++ t2;
  TransformListener := list (option (list string));
  lookupTransform := fun l _ _ _ =>
    match l with
    | [] => (None, [])
    | answer :: l' => (answer, l')
    end
|}.

(** The parameters of the hand of one arm. *)
Definition hand_params (arm hand : string) (joints : list string)
  : ParamServer :=
  fun name =>
    if (name =? "/hand_description/" ++ arm ++ "/hand_database_name")%string
    then Some (TypeString hand)
    else if (name =? "/hand_description/" ++ arm ++ "/hand_joints")%string
    then Some (TypeArray (map TypeString joints))
    else None.

Definition no_params : ParamServer := fun _ => None.

(** A database that answers every query with the same grasps. *)
Definition database_of (grasps : list (@DatabaseGrasp symbolic))
  : @ObjectsDatabase symbolic :=
  {| getClusterRepGrasps := fun _ _ => Some grasps |}.

Definition node_of (grasps : list (@DatabaseGrasp symbolic))
  : @ObjectsDatabaseNode symbolic :=
  {| database_ := Some (database_of grasps);
     prune_gripper_opening_ := S754_finite false 4503599627370496 (-53);
     prune_table_clearance_ := d_0_0 |}.

Definition d_m50 : double := S754_finite true 7036874417766400 (-47).
Definition d_1_2 : double := S754_finite false 5404319552844595 (-52).
Definition d_m2 : double := S754_finite true 4503599627370496 (-51).
Definition d_0_8 : double := S754_finite false 7205759403792794 (-53).

Definition grasp_of (quality : double) (pre fin : list double)
    (local : string) : @DatabaseGrasp symbolic :=
  @Build_DatabaseGrasp symbolic quality d_0_8 pre fin [local] d_0_0.

Definition request_of (arm : string)
    (models : list (Z * string)) (reference : string)
  : @Request symbolic :=
  @Build_Request symbolic arm
    (@Build_GraspableObject symbolic reference
       (map (fun m => @Build_DatabaseModelPose symbolic (fst m)
                        (@Build_PoseStamped symbolic (snd m) ["detection"]))
            models)).

(** The raw final posture of the scenario of the specification. *)
Definition scenario_posture : list double :=
  [d_0_0; d_0_0; d_0_0; d_0_0; d_0_0; d_0_0; d_1_2; d_m2].

Definition seven_joints : list string :=
  ["j0"; "j1"; "j2"; "j3"; "j4"; "j5"; "j6"].

(** The underactuated hand on the right arm, and a record with the
    posture of the scenario. *)
Definition schunk_params : ParamServer :=
  hand_params "right_arm" "Schunk" seven_joints.

Definition schunk_grasp : @DatabaseGrasp symbolic :=
  grasp_of d_m50 scenario_posture scenario_posture "grasp".

Definition scenario_positions : list double :=
  [d_0_0; d_1_2; d_m1_5707; d_0_0; d_0_0; d_0_0; d_0_0].

(** A record whose pre-grasp posture is one entry short. *)
Definition short_pre_grasp : @DatabaseGrasp symbolic :=
  grasp_of d_m50 (tl scenario_posture) scenario_posture "grasp".

(** A record with seven entries in both postures. *)
Definition seven_entry_grasp : @DatabaseGrasp symbolic :=
  grasp_of d_m50 (tl scenario_posture) (tl scenario_posture) "grasp".

(** A hand of one joint, mapped directly, and two records for it. *)
Definition one_joint_params : ParamServer :=
  hand_params "right_arm" "BARRETT" ["finger"].

Definition first_grasp : @DatabaseGrasp symbolic :=
  grasp_of d_m50 [d_0_8] [d_0_8] "grasp1".

Definition second_grasp : @DatabaseGrasp symbolic :=
  grasp_of d_m50 [d_0_8] [d_0_8] "grasp2".

(** A detection in the reference frame, and one seen from the camera. *)
Definition base_model : @DatabaseModelPose symbolic :=
  @Build_DatabaseModelPose symbolic 18744
    (@Build_PoseStamped symbolic "base_link" ["detection"]).

Definition camera_model : @DatabaseModelPose symbolic :=
  @Build_DatabaseModelPose symbolic 18744
    (@Build_PoseStamped symbolic "camera" ["detection"]).

Definition base_request : @Request symbolic :=
  request_of "right_arm" [(18744%Z, "base_link")] "base_link".

Definition camera_request : @Request symbolic :=
  request_of "right_arm" [(18744%Z, "camera")] "base_link".

(** A record for the hand of one joint whose pre-grasp posture has a
    value too many. *)
Definition uneven_grasp : @DatabaseGrasp symbolic :=
  grasp_of d_m50 [d_0_8; d_0_8] [d_0_8] "grasp3".

(** A node whose database refuses every query for grasps. *)
Definition refusing_node : @ObjectsDatabaseNode symbolic :=
  {| database_ := Some {| getClusterRepGrasps := fun _ _ => None |};
     prune_gripper_opening_ := S754_finite false 4503599627370496 (-53);
     prune_table_clearance_ := d_0_0 |}.

(** The grasp the callback makes of positions and a pose. *)
Definition resolved (names : list string) (pre fin : list double)
    (p : list string) : @Grasp symbolic :=
  @Build_Grasp symbolic
    {| name := names; position := pre;
       effort := repeat d_100 (length names) |}
    {| name := names; position := fin;
       effort := repeat d_50 (length names) |}
    p d_0_8 d_0_15 d_0_07.

End Demo.

(** The assertion at the head of the loop body, and whether a record
    gets its postures under a hand. *)
Definition assert_ok {tf : TF} (it : DatabaseGrasp) : bool :=
  length (final_grasp_posture_ it) =? length (pre_grasp_posture_ it).

Definition adapts {tf : TF} (hand_id : string) (joint_names : list string)
    (it : DatabaseGrasp) : bool :=
  match adapt_postures hand_id joint_names it with
  | Return (Some _) => true
  | _ => false
  end.

(** The two clamps of the underactuated hand, as the source writes
    them. *)
Definition clamp_first (a : double) : double :=
  std_min d_1_5707 (std_max a d_0_0).
Definition clamp_other (a : double) : double :=
  std_min d_1_5707 (std_max a d_m1_5707).

(** ** The other services of the node

    [getModelsCB], [getMeshCB], [getDescriptionCB], [getScansCB] and
    [saveScanCB] hand a request to the database and copy its answer
    into the response. *)

Module DatabaseReturnCode.
Inductive code := SUCCESS | DATABASE_NOT_CONNECTED | DATABASE_QUERY_ERROR.
End DatabaseReturnCode.

(** [DatabaseScaledModel], the fields the callbacks read. *)
Record DatabaseScaledModel := {
  id_ : Z;
  tags_ : list string;
  model_ : string;
  maker_ : string
}.

Section Services.

Context {tf : TF}.

(** [household_objects_database::DatabaseScan], the fields
    [saveScanCB] writes. *)
Record DatabaseScan := {
  frame_id_ : string;
  cloud_topic_ : string;
  object_pose_ : Pose;            (* .get().pose_ *)
  scaled_model_id_ : Z;
  scan_bagfile_location_ : string;
  scan_source_ : string
}.

(** The operations of [ObjectsDatabase] these callbacks call, declared
    in [objects_database.h] and taken as given. [DB] is the state of a
    connected database. An operation that fills an argument passed by
    reference takes it and gives it back with the flag it returns;
    [None] stands for the flag false where the argument is a local
    vector that is then dropped. *)
Class Catalog := {
  Mesh : Type;
  empty_mesh : Mesh;              (* the mesh of a fresh response *)
  Scan : Type;
  DB : Type;
  getScaledModelsBySet : DB -> string -> option (list DatabaseScaledModel);
  getScaledModelMesh : DB -> Z -> Mesh -> bool * Mesh;
  getList : DB -> string -> option (list DatabaseScaledModel);
  getModelScans : DB -> Z -> string -> list Scan -> bool * list Scan;
  insertIntoDatabase : DB -> DatabaseScan -> bool * DB
}.

Context {catalog : Catalog}.

Record GetModelList_Request := {
  model_set : string
}.

Record GetModelList_Response := {
  model_ids : list Z;
  list_code : DatabaseReturnCode.code         (* return_code.code *)
}.

Record GetModelMesh_Response := {
  mesh : Mesh;
  mesh_code : DatabaseReturnCode.code         (* return_code.code *)
}.

Record GetModelDescription_Response := {
  tags : list string;
  description_name : string;                  (* name *)
  maker : string;
  description_code : DatabaseReturnCode.code  (* return_code.code *)
}.

Record GetModelScans_Request := {
  scans_model_id : Z;                         (* model_id *)
  scan_source : string
}.

Record GetModelScans_Response := {
  matching_scans : list Scan;
  scans_code : DatabaseReturnCode.code        (* return_code.code *)
}.

Record SaveScan_Request := {
  ground_truth_pose : PoseStamped;
  cloud_topic : string;
  scaled_model_id : Z;
  bagfile_location : string;
  save_scan_source : string                   (* scan_source *)
}.

(** *** getModelsCB *)

(** The loop [for (i = 0; i < models.size(); i++)], with [n]
    iterations left. *)
Fixpoint getModelsCB_loop (models : list DatabaseScaledModel) (n i : nat)
    (model_ids : list Z) : Outcome (list Z) :=
  match n with
  | O => Return model_ids
  | S n' =>
      m <- Vector.index models i ;;
      getModelsCB_loop models n' (S i) (model_ids ++ [id_ m])
  end.

Definition getModelsCB (database_ : option DB) (request : GetModelList_Request)
  : Outcome GetModelList_Response :=
  match database_ with
  | None =>
      Return {| model_ids := [];
                list_code := DatabaseReturnCode.DATABASE_NOT_CONNECTED |}
  | Some db =>
      match getScaledModelsBySet db (model_set request) with
      | None =>
          Return {| model_ids := [];
                    list_code := DatabaseReturnCode.DATABASE_QUERY_ERROR |}
      | Some models =>
          model_ids <- getModelsCB_loop models (length models) 0 [] ;;
          Return {| model_ids := model_ids;
                    list_code := DatabaseReturnCode.SUCCESS |}
      end
  end.

(** *** getMeshCB; the request is its [model_id]. *)
Definition getMeshCB (database_ : option DB) (request_model_id : Z)
  : GetModelMesh_Response :=
  match database_ with
  | None =>
      {| mesh := empty_mesh;
         mesh_code := DatabaseReturnCode.DATABASE_NOT_CONNECTED |}
  | Some db =>
      match getScaledModelMesh db request_model_id empty_mesh with
      | (false, m) =>
          {| mesh := m;
             mesh_code := DatabaseReturnCode.DATABASE_QUERY_ERROR |}
      | (true, m) =>
          {| mesh := m; mesh_code := DatabaseReturnCode.SUCCESS |}
      end
  end.

(** *** getDescriptionCB; the request is its [model_id]. *)

(** [id << request.model_id], then ["scaled_model_id=" + id.str()]. *)
Definition where_clause (request_model_id : Z) : string :=
  ("scaled_model_id=" ++ NilEmpty.string_of_int (Z.to_int request_model_id))
  %string.

Definition getDescriptionCB (database_ : option DB) (request_model_id : Z)
  : Outcome GetModelDescription_Response :=
  match database_ with
  | None =>
      Return {| tags := []; description_name := ""; maker := "";
                description_code :=
                  DatabaseReturnCode.DATABASE_NOT_CONNECTED |}
  | Some db =>
      match getList db (where_clause request_model_id) with
      | None =>
          Return {| tags := []; description_name := ""; maker := "";
                    description_code :=
                      DatabaseReturnCode.DATABASE_QUERY_ERROR |}
      | Some models =>
          if negb (length models =? 1)
          then Return {| tags := []; description_name := ""; maker := "";
                         description_code :=
                           DatabaseReturnCode.DATABASE_QUERY_ERROR |}
          else
            m <- Vector.index models 0 ;;
            Return {| tags := tags_ m; description_name := model_ m;
                      maker := maker_ m;
                      description_code := DatabaseReturnCode.SUCCESS |}
      end
  end.

(** *** getScansCB: what [getModelScans] returns is not looked at. *)
Definition getScansCB (database_ : option DB) (request : GetModelScans_Request)
  : GetModelScans_Response :=
  match database_ with
  | None =>
      {| matching_scans := [];
         scans_code := DatabaseReturnCode.DATABASE_NOT_CONNECTED |}
  | Some db =>
      let (_, scans) :=
        getModelScans db (scans_model_id request) (scan_source request) [] in
      {| matching_scans := scans; scans_code := DatabaseReturnCode.SUCCESS |}
  end.

(** *** saveScanCB: the response is its return code; the database is
    left as the insertion leaves it, and what the insertion returns is
    not looked at. *)
Definition scan_of_request (request : SaveScan_Request) : DatabaseScan :=
  {| frame_id_ := frame_id (ground_truth_pose request);
     cloud_topic_ := cloud_topic request;
     object_pose_ := pose (ground_truth_pose request);
     scaled_model_id_ := scaled_model_id request;
     scan_bagfile_location_ := bagfile_location request;
     scan_source_ := save_scan_source request |}.

Definition saveScanCB (database_ : option DB) (request : SaveScan_Request)
  : DatabaseReturnCode.code * option DB :=
  match database_ with
  | None => (DatabaseReturnCode.DATABASE_NOT_CONNECTED, None)
  | Some db =>
      let scan := scan_of_request request in
      let (_, db') := insertIntoDatabase db scan in
      (DatabaseReturnCode.SUCCESS, Some db')
  end.

End Services.

(** ** More words for the grasp planning request *)

Section RequestWords.

Context {tf : TF}.

(** A turn of the loop on the record pushes the grasp, from some state
    of the listener. *)
Definition pushed_by (ps : ParamServer) (request : Request)
    (model : DatabaseModelPose) (hand_id : string) (it : DatabaseGrasp)
    (g : Grasp) : Prop :=
  exists l l' : TransformListener,
    convert_grasp ps request model hand_id it l = (Return (Push g), l').

(** How many of the next [n] lookups of the transform the listener
    answers before the first it does not. *)
Fixpoint answered (reference detection : string) (n : nat)
    (listener_ : TransformListener) : nat :=
  match n with
  | O => O
  | S n' =>
      match lookupTransform listener_ reference detection (ros_Time 0) with
      | (Some _, listener') => S (answered reference detection n' listener')
      | (None, _) => O
      end
  end.

(** The grasp of a record when the detection is in the reference
    frame, if the hand gives the record postures. *)
Definition grasp_in_frame (hand_id : string) (joint_names : list string)
    (detection : Pose) (it : DatabaseGrasp) : list Grasp :=
  match adapt_postures hand_id joint_names it with
  | Return (Some (pre, fin)) =>
      [ {| pre_grasp_posture :=
             {| name := joint_names; position := position pre;
                effort := repeat d_100 (length joint_names) |};
           grasp_posture :=
             {| name := joint_names; position := position fin;
                effort := repeat d_50 (length joint_names) |};
           grasp_pose := multiplyPoses detection (final_grasp_pose_ it);
           success_probability := scaled_quality_ it;
           desired_approach_distance := d_0_15;
           min_approach_distance := d_0_07 |} ]
  | _ => []
  end.

(** A position inside an interval; a NaN is inside none. *)
Definition within (lo hi p : double) : bool := le lo p && le p hi.

End RequestWords.

(** ** A sample catalog

    The state of the database is the list of the scans saved so far;
    a model set is answered with the models whose maker it names, a
    where clause with the models whose own clause it is. *)

Module Samples.

Definition mug : DatabaseScaledModel :=
  {| id_ := 18744; tags_ := ["mug"; "kitchen"]; model_ := "coffee mug";
     maker_ := "acme" |}.

Definition bowl : DatabaseScaledModel :=
  {| id_ := 18699; tags_ := ["bowl"]; model_ := "salad bowl";
     maker_ := "acme" |}.

Definition models : list DatabaseScaledModel := [mug; bowl].

Definition described_by (clause : string) (m : DatabaseScaledModel) : bool :=
  (clause =? "scaled_model_id="
             ++ NilEmpty.string_of_int (Z.to_int (id_ m)))%string.

Definition catalog : @Catalog Demo.symbolic := {|
  Mesh := list Z;
  empty_mesh := [];
  Scan := string;
  DB := list (@DatabaseScan Demo.symbolic);
  getScaledModelsBySet := fun _ set =>
    Some (filter (fun m => (maker_ m =? set)%string) models);
  getScaledModelMesh := fun _ id m =>
    if (id =? 18744)%Z then (true, [0; 1; 2]%Z) else (false, m);
  getList := fun _ clause => Some (filter (described_by clause) models);
  getModelScans := fun _ _ _ scans => (false, scans);
  insertIntoDatabase := fun db scan => (false, scan :: db)
|}.

End Samples.

(** ** Facts on doubles *)

Module DoubleFacts.

Lemma d_1_5707_nearest : nearest 15707 10000 7073803934710838 52.
Proof. unfold nearest; split; [vm_compute; discriminate | lia]. Qed.

Lemma d_0_15_nearest : nearest 15 100 5404319552844595 55.
Proof. unfold nearest; split; [vm_compute; discriminate | lia]. Qed.

Lemma d_0_07_nearest : nearest 7 100 5044031582654956 56.
Proof. unfold nearest; split; [vm_compute; discriminate | lia]. Qed.

Lemma d_m40_exact : (Z.pos 5629499534213120 = 40 * 2 ^ 47)%Z.
Proof. reflexivity. Qed.

Lemma d_50_exact : (Z.pos 7036874417766400 = 50 * 2 ^ 47)%Z.
Proof. reflexivity. Qed.

Lemma d_100_exact : (Z.pos 7036874417766400 = 100 * 2 ^ 46)%Z.
Proof. reflexivity. Qed.

Lemma compare_cont_antisym (p q : positive) :
  Pos.compare_cont Eq q p = CompOpp (Pos.compare_cont Eq p q).
Proof. apply (Pos.compare_antisym p q). Qed.

(** Swapping the operands of a comparison reverses its answer. *)
Lemma SFcompare_antisym (a b : double) :
  SFcompare b a = option_map CompOpp (SFcompare a b).
Proof.
  destruct a as [sa|sa| |sa ma ea], b as [sb|sb| |sb mb eb];
    try reflexivity; try (destruct sa; reflexivity);
    try (destruct sb; reflexivity);
    try (destruct sa, sb; reflexivity).
  destruct sa, sb; simpl; try reflexivity;
    rewrite (Z.compare_antisym ea eb);
    destruct (ea ?= eb)%Z; simpl; try reflexivity;
    rewrite (compare_cont_antisym ma mb);
    destruct (Pos.compare_cont Eq ma mb); reflexivity.
Qed.

Lemma lt_ge (a b : double) : lt a b = true -> ge a b = false.
Proof.
  unfold lt, ge, SFltb. destruct (SFcompare a b) as [[]|]; congruence.
Qed.

Lemma ge_le (a b : double) : ge a b = le b a.
Proof.
  unfold ge, le, SFleb. rewrite (SFcompare_antisym a b).
  destruct (SFcompare a b) as [[]|]; reflexivity.
Qed.

Lemma lt_le (a b : double) : lt a b = true -> le a b = true.
Proof.
  unfold lt, le, SFltb, SFleb.
  destruct (SFcompare a b) as [[]|]; congruence.
Qed.

Lemma le_not_lt (a b : double) : le a b = true -> lt b a = false.
Proof.
  unfold lt, le, SFltb, SFleb. rewrite (SFcompare_antisym a b).
  destruct (SFcompare a b) as [[]|]; simpl; congruence.
Qed.

Lemma SFcompare_None (a b : double) :
  SFcompare a b = None -> is_nan a = true \/ is_nan b = true.
Proof.
  destruct a as [sa|sa| |sa ma ea], b as [sb|sb| |sb mb eb]; simpl; auto;
    try discriminate.
Qed.

(** Neither operand a NaN: one of the two orders holds. *)
Lemma not_lt_le (a b : double) :
  lt a b = false -> is_nan a = false -> is_nan b = false -> le b a = true.
Proof.
  unfold lt, le, SFltb, SFleb. rewrite (SFcompare_antisym a b).
  destruct (SFcompare a b) as [[]|] eqn:E; simpl; try congruence.
  apply SFcompare_None in E. intros _ Ha Hb. destruct E; congruence.
Qed.

Lemma lt_not_nan (a b : double) :
  lt a b = true -> is_nan a = false /\ is_nan b = false.
Proof.
  unfold lt, SFltb. destruct a, b; simpl; try congruence; auto.
Qed.

Lemma le_not_nan (a b : double) :
  le a b = true -> is_nan a = false /\ is_nan b = false.
Proof.
  unfold le, SFleb. destruct a, b; simpl; try congruence; auto.
Qed.

(** Two finite doubles that compare equal are the same double, when
    one of them is not a zero. *)
Lemma le_antisym_finite (a : double) (s : bool) (m : positive) (e : Z) :
  le a (S754_finite s m e) = true ->
  lt a (S754_finite s m e) = false ->
  a = S754_finite s m e.
Proof.
  unfold le, lt, SFleb, SFltb.
  destruct a as [sa|sa| |sa ma ea]; simpl;
    try (destruct sa; simpl; congruence);
    try (destruct s; simpl; congruence); try congruence.
  destruct sa, s; simpl; try congruence;
    destruct (ea ?= e)%Z eqn:He; simpl; try congruence;
    apply Z.compare_eq in He; subst;
    destruct (Pos.compare_cont Eq ma m) eqn:Hm; simpl; try congruence;
    apply Pos.compare_eq in Hm; subst; reflexivity.
Qed.

Lemma le_refl (a : double) : is_nan a = false -> le a a = true.
Proof.
  unfold le, SFleb. destruct a as [s|s| |s m e]; simpl; try congruence;
    destruct s; try reflexivity;
    rewrite Z.compare_refl, Pos.compare_cont_refl; reflexivity.
Qed.

(** *** std::min(hi, std::max(x, lo)) clamps *)

Section Clamp.

Variables (lo : double) (s : bool) (m : positive) (e : Z).
Let hi : double := S754_finite s m e.

Hypothesis lo_lt_hi : lt lo hi = true.
Hypothesis above_hi : forall x, lt hi x = true -> lt x lo = false.

Lemma min_max_clamped (x : double) :
  clamped_into lo hi x (std_min hi (std_max x lo)).
Proof.
  destruct (lt_not_nan _ _ lo_lt_hi) as [Hlo Hhi].
  unfold clamped_into, std_min, std_max.
  destruct (lt x lo) eqn:Hxlo.
  - rewrite lo_lt_hi. repeat split; auto using le_refl, lt_le.
    + intros H _. apply le_not_lt in H. congruence.
    + intros H. apply above_hi in H. congruence.
  - destruct (lt x hi) eqn:Hxhi.
    + destruct (lt_not_nan _ _ Hxhi) as [Hx _].
      repeat split; auto using not_lt_le, lt_le; try congruence.
      intros H. apply lt_le, le_not_lt in H. congruence.
    + repeat split; auto using le_refl, lt_le; try congruence.
      intros _ H. symmetry. apply le_antisym_finite; assumption.
Qed.

Lemma min_max_clamp (x : double) :
  is_nan x = false -> std_min hi (std_max x lo) = clamp x lo hi.
Proof.
  intros Hx. destruct (lt_not_nan _ _ lo_lt_hi) as [Hlo Hhi].
  unfold clamp, std_min, std_max.
  destruct (lt x lo) eqn:Hxlo.
  - rewrite lo_lt_hi. reflexivity.
  - destruct (lt x hi) eqn:Hxhi.
    + apply lt_le, le_not_lt in Hxhi. fold hi in Hxhi.
      rewrite Hxhi. reflexivity.
    + destruct (lt hi x) eqn:Hhix; [reflexivity|].
      symmetry. apply le_antisym_finite; [|assumption].
      apply not_lt_le; assumption.
Qed.

Lemma min_max_nan : std_min hi (std_max S754_nan lo) = hi.
Proof. reflexivity. Qed.

End Clamp.

(** Between two bounds in order the relation leaves one value only,
    that of the function, for everything but a NaN. *)
Lemma clamped_into_clamp (lo hi x r : double) :
  lt lo hi = true -> clamped_into lo hi x r -> is_nan x = false ->
  r = clamp x lo hi.
Proof.
  intros Hlh (_ & _ & Hin & Hlo & Hhi) Hx.
  destruct (lt_not_nan _ _ Hlh) as [Hnlo Hnhi].
  unfold clamp. destruct (lt x lo) eqn:Hxlo; [auto|].
  destruct (lt hi x) eqn:Hhix; [auto|].
  apply Hin; apply not_lt_le; assumption.
Qed.

(** Above a positive double, so neither below zero nor below a
    negative double. *)
Lemma above_positive_zero (m : positive) (e : Z) (s0 : bool) (x : double) :
  lt (S754_finite false m e) x = true -> lt x (S754_zero s0) = false.
Proof.
  unfold lt, SFltb.
  destruct x as [s|s| |s m' e']; try destruct s; simpl; congruence.
Qed.

Lemma above_positive_negative (m m0 : positive) (e e0 : Z) (x : double) :
  lt (S754_finite false m e) x = true ->
  lt x (S754_finite true m0 e0) = false.
Proof.
  unfold lt, SFltb.
  destruct x as [s|s| |s m' e']; try destruct s; simpl; congruence.
Qed.

(** The first joint of the underactuated hand: into [0, 1.5707]. *)
Lemma clamp_0 (x : double) : clamp_of d_0_0 d_1_5707 x (clamp_first x).
Proof.
  assert (H : clamped_into d_0_0 d_1_5707 x (clamp_first x)).
  { apply min_max_clamped;
      [vm_compute; reflexivity | apply above_positive_zero]. }
  split; [exact H|].
  apply clamped_into_clamp; [vm_compute; reflexivity | exact H].
Qed.

(** Its other joints: into [-1.5707, 1.5707]. *)
Lemma clamp_m (x : double) : clamp_of d_m1_5707 d_1_5707 x (clamp_other x).
Proof.
  assert (H : clamped_into d_m1_5707 d_1_5707 x (clamp_other x)).
  { apply min_max_clamped;
      [vm_compute; reflexivity | apply above_positive_negative]. }
  split; [exact H|].
  apply clamped_into_clamp; [vm_compute; reflexivity | exact H].
Qed.

End DoubleFacts.

(** ** The grasp filter *)

Section Filter.

Context {tf : TF}.

Lemma filter_Subsequence {A} (f : A -> bool) (l : list A) :
  Subsequence (filter f l) l.
Proof.
  induction l as [|x l IH]; simpl; [constructor|].
  destruct (f x); constructor; assumption.
Qed.

Lemma filter_negb_length {A} (f : A -> bool) (l : list A) :
  length (filter (fun x => negb (f x)) l) = length l - length (filter f l).
Proof.
  induction l as [|x l IH]; [reflexivity|].
  pose proof (filter_length_le f l).
  cbn [filter length]. destruct (f x); cbn [negb length]; lia.
Qed.

(** The loop, from any position of the iterator. *)
Lemma prune_loop_filter (rest kept : list DatabaseGrasp) (pruned : Z) :
  prune_loop kept rest pruned =
    (kept ++ filter below_threshold rest,
     (pruned + Z.of_nat (length (filter (fun g => negb (below_threshold g))
                                   rest)))%Z).
Proof.
  revert kept pruned.
  induction rest as [|g rest IH]; intros kept pruned;
    cbn [prune_loop filter length].
  - rewrite app_nil_r, Z.add_0_r. reflexivity.
  - change (below_threshold g) with (negb (ge (quality_ g) d_m40)).
    destruct (ge (quality_ g) d_m40); cbn [negb length]; rewrite IH.
    + f_equal. rewrite Nat2Z.inj_succ. lia.
    + rewrite <- app_assoc. reflexivity.
Qed.

Lemma pruneGraspList_filter (grasps : list DatabaseGrasp) (gt tc : double) :
  fst (pruneGraspList grasps gt tc) = filter below_threshold grasps.
Proof. unfold pruneGraspList. rewrite prune_loop_filter. reflexivity. Qed.

(** C3. The filter removes exactly the records whose quality is
    greater than or equal to -40, the record of quality -40 among
    them, and keeps every record of quality below -40; the records
    that survive are records of the input, in the order of the
    input; the count it reports is the number it removed. *)
Theorem pruneGraspList_removes_at_or_above_threshold
    (grasps : list DatabaseGrasp) (gt tc : double) :
  let out := fst (pruneGraspList grasps gt tc) in
  out = filter (fun g => negb (ge (quality_ g) d_m40)) grasps
  /\ (forall g, In g out <-> In g grasps /\ ge (quality_ g) d_m40 = false)
  /\ (forall g, In g grasps -> lt (quality_ g) d_m40 = true -> In g out)
  /\ (forall g, quality_ g = d_m40 -> ~ In g out)
  /\ Subsequence out grasps
  /\ snd (pruneGraspList grasps gt tc)
     = Z.of_nat (length grasps - length out).
Proof.
  cbv zeta. rewrite pruneGraspList_filter.
  assert (Hin : forall g, In g (filter below_threshold grasps) <->
                          In g grasps /\ ge (quality_ g) d_m40 = false).
  { intros g. rewrite filter_In. unfold below_threshold.
    rewrite negb_true_iff. reflexivity. }
  split; [reflexivity|].
  split; [exact Hin|].
  split; [intros g Hg Hlt; apply Hin; auto using DoubleFacts.lt_ge|].
  split.
  { intros g Hq Hg. apply Hin in Hg. destruct Hg as [_ Hg].
    rewrite Hq in Hg. vm_compute in Hg. discriminate. }
  split; [apply filter_Subsequence|].
  unfold pruneGraspList. rewrite prune_loop_filter.
  cbn [snd]. rewrite filter_negb_length. reflexivity.
Qed.

(** C8. The two thresholds the filter is given play no part in it:
    whatever their values, the same records are kept, those of
    quality not at or above -40, and the request ends the same. *)
Theorem pruneGraspList_ignores_thresholds
    (grasps : list DatabaseGrasp) (gt1 tc1 gt2 tc2 : double)
    (database : option ObjectsDatabase) (ps : ParamServer)
    (request : Request) (listener_ : TransformListener) :
  pruneGraspList grasps gt1 tc1 = pruneGraspList grasps gt2 tc2
  /\ fst (pruneGraspList grasps gt1 tc1) = filter below_threshold grasps
  /\ graspPlanningCB {| database_ := database;
                        prune_gripper_opening_ := gt1;
                        prune_table_clearance_ := tc1 |} ps request listener_
     = graspPlanningCB {| database_ := database;
                          prune_gripper_opening_ := gt2;
                          prune_table_clearance_ := tc2 |}
         ps request listener_.
Proof.
  split; [reflexivity|]. split; [apply pruneGraspList_filter|].
  unfold graspPlanningCB; simpl.
  destruct database as [db|]; [|reflexivity].
  destruct (potential_models (target request)) as [|model rest];
    [reflexivity|].
  destruct (getClusterRepGrasps db _ _) as [gs|]; reflexivity.
Qed.

End Filter.

(** ** The hand description *)

Lemma xml_size_raises (v : XmlRpcValue) (e : Exception) :
  xml_size v = Raise e -> e = XmlRpcException.
Proof. destruct v; cbn; congruence. Qed.

Lemma xml_index_raises (v : XmlRpcValue) (i : nat) (e : Exception) :
  xml_index v i = Raise e -> e = XmlRpcException.
Proof. destruct v; cbn; congruence. Qed.

Lemma xml_string_raises (v : XmlRpcValue) (e : Exception) :
  xml_string v = Raise e -> e = XmlRpcException.
Proof. destruct v; cbn; congruence. Qed.

Lemma getVectorParam_loop_raises (v : XmlRpcValue) (n : nat) :
  forall (i : nat) (values : list string) (e : Exception),
    getVectorParam_loop v n i values = Raise e -> e = XmlRpcException.
Proof.
  induction n as [|n IH]; intros i values e; cbn [getVectorParam_loop];
    [discriminate|].
  destruct (xml_index v i) as [x|e1] eqn:Hx; cbn [bind].
  - destruct (xml_string x) as [y|e2] eqn:Hy; cbn [bind].
    + apply IH.
    + intros H. injection H as <-. eapply xml_string_raises; eassumption.
  - intros H. injection H as <-. eapply xml_index_raises; eassumption.
Qed.

(** The only exception out of the joint names is that of XmlRpc. *)
Lemma handJointNames_raises (ps : ParamServer) (arm : string) (e : Exception) :
  handJointNames ps arm = Raise e -> e = XmlRpcException.
Proof.
  unfold handJointNames, getVectorParam.
  match goal with |- context [xml_size ?v] => generalize v end.
  intros v. destruct (xml_size v) as [n|e1] eqn:Hs; cbn [bind].
  - apply getVectorParam_loop_raises.
  - intros H. injection H as <-. eapply xml_size_raises; eassumption.
Qed.

(** An array of strings under the name gives its strings. *)
Lemma getVectorParam_loop_strings (l : list XmlRpcValue) :
  forall (rest done_ : list string) (values : list string),
    l = map TypeString (done_ ++ rest) ->
    getVectorParam_loop (TypeArray l) (length rest) (length done_) values
    = Return (values ++ rest).
Proof.
  intros rest. induction rest as [|s rest IH]; intros done_ values Hl;
    cbn [getVectorParam_loop length].
  - rewrite app_nil_r. reflexivity.
  - cbn [xml_index bind].
    assert (Hnth : nth (length done_) l TypeInvalid = TypeString s).
    { subst l. rewrite map_app, app_nth2; rewrite length_map; [|lia].
      rewrite Nat.sub_diag. reflexivity. }
    rewrite Hnth. cbn [xml_string bind].
    replace (S (length done_)) with (length (done_ ++ [s]))
      by (rewrite length_app; cbn; lia).
    rewrite IH by (rewrite <- app_assoc; exact Hl).
    rewrite <- app_assoc. reflexivity.
Qed.

Lemma handJointNames_strings (ps : ParamServer) (arm : string)
    (joints : list string) :
  ps ("/hand_description/" ++ arm ++ "/hand_joints")%string
    = Some (TypeArray (map TypeString joints)) ->
  handJointNames ps arm = Return joints.
Proof.
  intros H. unfold handJointNames, getVectorParam. rewrite H.
  cbn [xml_size bind]. rewrite length_map.
  apply (getVectorParam_loop_strings _ joints [] []). reflexivity.
Qed.

(** No value under the name: [size()] throws. *)
Lemma handJointNames_absent (ps : ParamServer) (arm : string) :
  ps ("/hand_description/" ++ arm ++ "/hand_joints")%string = None ->
  handJointNames ps arm = Raise XmlRpcException.
Proof.
  intros H. unfold handJointNames, getVectorParam. rewrite H. reflexivity.
Qed.

(** ** The postures of a grasp *)

Section Postures.

Context {tf : TF}.

Lemma resize_length {A} (n : nat) (fill : A) (v : list A) :
  length (Vector.resize n fill v) = n.
Proof.
  unfold Vector.resize. rewrite length_app, length_firstn, repeat_length. lia.
Qed.

(** The seven positions read the raw vector at the indices 0, 6, 7, 1,
    2, 3 and 4: with eight entries or more they are all there. *)
Lemma schunk_positions_long (v : list double) :
  8 <= length v ->
  schunk_positions v =
    Return [clamp_first (nth 0 v d_0_0); clamp_other (nth 6 v d_0_0);
            clamp_other (nth 7 v d_0_0); clamp_other (nth 1 v d_0_0);
            clamp_other (nth 2 v d_0_0); clamp_other (nth 3 v d_0_0);
            clamp_other (nth 4 v d_0_0)].
Proof.
  intros H.
  do 8 (destruct v as [|? v]; [simpl in H; lia|]).
  reflexivity.
Qed.

(** With fewer than eight entries one of the reads is outside. *)
Lemma schunk_positions_short (v : list double) :
  length v < 8 -> schunk_positions v = Raise OutOfBounds.
Proof.
  intros H.
  do 8 (destruct v as [|? v]; [reflexivity|]).
  simpl in H. lia.
Qed.

Lemma schunk_positions_length (v p : list double) :
  schunk_positions v = Return p -> length p = 7.
Proof.
  intros H. destruct (Nat.lt_ge_cases (length v) 8) as [Hs|Hl].
  - rewrite schunk_positions_short in H by assumption. discriminate.
  - rewrite schunk_positions_long in H by assumption.
    injection H as <-. reflexivity.
Qed.

(** What the branches leave in the two postures, when they leave
    any: the names of the joints, and as many positions as names;
    the record is one that passes the assertion. *)
Lemma adapt_postures_shape (hand_id : string) (joint_names : list string)
    (it : DatabaseGrasp) (pre fin : JointState) :
  assert_ok it = true ->
  adapt_postures hand_id joint_names it = Return (Some (pre, fin)) ->
  name pre = joint_names /\ name fin = joint_names
  /\ effort pre = [] /\ effort fin = []
  /\ length (position pre) = length joint_names
  /\ length (position fin) = length joint_names.
Proof.
  unfold assert_ok, adapt_postures. intros Ha.
  apply Nat.eqb_eq in Ha.
  destruct (hand_id =? "Schunk")%string.
  - destruct (length joint_names =? 7) eqn:Hn; cbn [negb]; [|discriminate].
    destruct (length (final_grasp_posture_ it) =? 8); cbn [negb];
      [|discriminate].
    apply Nat.eqb_eq in Hn.
    destruct (schunk_positions (pre_grasp_posture_ it)) as [p|] eqn:Hp;
      cbn [bind]; [|discriminate].
    destruct (schunk_positions (final_grasp_posture_ it)) as [q|] eqn:Hq;
      cbn [bind]; [|discriminate].
    intros H. injection H as <- <-. cbn.
    apply schunk_positions_length in Hp, Hq. rewrite Hp, Hq, Hn. repeat split.
  - destruct (negb (hand_id =? "WILLOW_GRIPPER_2010")%string).
    + destruct (length joint_names =? length (final_grasp_posture_ it))
        eqn:Hn; cbn [negb]; [|discriminate].
      apply Nat.eqb_eq in Hn.
      intros H. injection H as <- <-. cbn. rewrite <- Ha, Hn. repeat split.
    + destruct (negb (length joint_names =? 4)
                || negb (length (final_grasp_posture_ it) =? 1));
        [discriminate|].
      destruct (Vector.at_ (pre_grasp_posture_ it) 0); cbn [bind];
        [|discriminate].
      destruct (Vector.at_ (final_grasp_posture_ it) 0); cbn [bind];
        [|discriminate].
      intros H. injection H as <- <-. cbn.
      rewrite !resize_length. repeat split.
Qed.

(** A record that passes the assertion is either given postures or
    passed over: no read is outside its vectors. *)
Lemma adapt_postures_returns (hand_id : string) (joint_names : list string)
    (it : DatabaseGrasp) :
  assert_ok it = true ->
  exists o, adapt_postures hand_id joint_names it = Return o.
Proof.
  unfold assert_ok, adapt_postures. intros Ha. apply Nat.eqb_eq in Ha.
  destruct (hand_id =? "Schunk")%string.
  - destruct (length joint_names =? 7); cbn [negb]; [|eauto].
    destruct (length (final_grasp_posture_ it) =? 8) eqn:Hf; cbn [negb];
      [|eauto].
    apply Nat.eqb_eq in Hf.
    rewrite !schunk_positions_long by lia. cbn [bind]. eauto.
  - destruct (negb (hand_id =? "WILLOW_GRIPPER_2010")%string).
    + destruct (negb (length joint_names
                      =? length (final_grasp_posture_ it))); eauto.
    + destruct (length joint_names =? 4); cbn [negb orb]; [|eauto].
      destruct (length (final_grasp_posture_ it) =? 1) eqn:Hf; cbn [negb];
        [|eauto].
      apply Nat.eqb_eq in Hf. rewrite Hf in Ha.
      destruct (pre_grasp_posture_ it) as [|a v]; [discriminate|].
      destruct (final_grasp_posture_ it) as [|b w]; [discriminate|].
      cbn. eauto.
Qed.

(** One turn of the loop on a record that is passed over. *)
Lemma convert_loop_continue (ps : ParamServer) (request : Request)
    (model : DatabaseModelPose) (hand_id : string) (joint_names : list string)
    (it : DatabaseGrasp) (its : list DatabaseGrasp) (pushed : list Grasp)
    (listener_ : TransformListener) :
  assert_ok it = true ->
  handJointNames ps (arm_name request) = Return joint_names ->
  adapt_postures hand_id joint_names it = Return None ->
  convert_loop ps request model hand_id (it :: its) pushed listener_ =
  convert_loop ps request model hand_id its pushed listener_.
Proof.
  intros Ha Hn Hp. cbn [convert_loop]. unfold convert_grasp.
  unfold assert_ok in Ha. rewrite Ha, Hn, Hp. reflexivity.
Qed.


End Postures.

(** ** The request *)

Section Callback.

Context {tf : TF}.

(** A turn of the loop that pushes a grasp: what was read, and what
    the grasp is made of. *)
Lemma convert_grasp_push (ps : ParamServer) (request : Request)
    (model : DatabaseModelPose) (hand_id : string) (it : DatabaseGrasp)
    (listener_ listener' : TransformListener) (g : Grasp) :
  convert_grasp ps request model hand_id it listener_
    = (Return (Push g), listener') ->
  assert_ok it = true
  /\ exists joint_names pre fin,
      handJointNames ps (arm_name request) = Return joint_names
      /\ adapt_postures hand_id joint_names it = Return (Some (pre, fin))
      /\ compose_grasp_pose (model_pose model)
           (reference_frame_id (target request)) (final_grasp_pose_ it)
           listener_ = (Some (grasp_pose g), listener')
      /\ g = {| pre_grasp_posture :=
                  {| name := name pre; position := position pre;
                     effort := Vector.resize (length joint_names) d_100
                                 (effort pre) |};
                grasp_posture :=
                  {| name := name fin; position := position fin;
                     effort := Vector.resize (length joint_names) d_50
                                 (effort fin) |};
                grasp_pose := grasp_pose g;
                success_probability := scaled_quality_ it;
                desired_approach_distance := d_0_15;
                min_approach_distance := d_0_07 |}.
Proof.
  unfold convert_grasp, assert_ok.
  destruct (length (final_grasp_posture_ it)
            =? length (pre_grasp_posture_ it)); cbn [negb]; [|discriminate].
  destruct (handJointNames ps (arm_name request)) as [joint_names|e];
    [|discriminate].
  destruct (adapt_postures hand_id joint_names it) as [[[pre fin]|]|e]
    eqn:Hp; try discriminate.
  destruct (compose_grasp_pose _ _ _ _) as [[p|] l]; [|discriminate].
  intros H. injection H as <- <-. split; [reflexivity|].
  exists joint_names, pre, fin.
  split; [reflexivity|]. split; [exact Hp|].
  split; reflexivity.
Qed.

(** What holds of every grasp a turn pushes holds of every grasp of
    the response. *)
Lemma convert_loop_Forall (P : Grasp -> Prop) (ps : ParamServer)
    (request : Request) (model : DatabaseModelPose) (hand_id : string) :
  (forall it l l' g,
      convert_grasp ps request model hand_id it l = (Return (Push g), l') ->
      P g) ->
  forall (its : list DatabaseGrasp) (pushed : list Grasp)
         (listener_ listener' : TransformListener) (response : Response),
    Forall P pushed ->
    convert_loop ps request model hand_id its pushed listener_
      = (Return response, listener') ->
    Forall P (grasps response).
Proof.
  intros Hstep its.
  induction its as [|it its IH]; intros pushed l l' response Hp;
    cbn [convert_loop].
  - intros H. injection H as <- _. exact Hp.
  - destruct (convert_grasp ps request model hand_id it l)
      as [[[|g|]|e] l1] eqn:Hc.
    + apply IH. exact Hp.
    + apply IH. apply Forall_app. split; [exact Hp|].
      constructor; [|constructor]. eapply Hstep. exact Hc.
    + intros H. injection H as <- _. exact Hp.
    + discriminate.
Qed.

(** The same, for the whole callback. *)
Lemma graspPlanningCB_Forall (P : Grasp -> Prop)
    (node : ObjectsDatabaseNode) (ps : ParamServer) (request : Request)
    (listener_ listener' : TransformListener) (response : Response) :
  (forall model hand_id it l l' g,
      convert_grasp ps request model hand_id it l = (Return (Push g), l') ->
      P g) ->
  graspPlanningCB node ps request listener_ = (Return response, listener') ->
  Forall P (grasps response).
Proof.
  intros Hstep. unfold graspPlanningCB.
  destruct (database_ node) as [database|];
    [|intros H; injection H as <- _; constructor].
  destruct (potential_models (target request)) as [|model rest];
    [intros H; injection H as <- _; constructor|].
  destruct (getClusterRepGrasps database _ _) as [gs|];
    [|intros H; injection H as <- _; constructor].
  apply convert_loop_Forall; [apply Hstep | constructor].
Qed.

(** C5. Every grasp of a response has as many pre-grasp positions as
    grasp positions, and as many as the hand has joint names, under
    each of the three strategies; the names of both postures are the
    joint names of the hand. *)
Theorem grasp_postures_match_joint_names
    (node : ObjectsDatabaseNode) (ps : ParamServer) (request : Request)
    (listener_ listener' : TransformListener) (response : Response)
    (g : Grasp) :
  graspPlanningCB node ps request listener_ = (Return response, listener') ->
  In g (grasps response) ->
  exists joint_names,
    handJointNames ps (arm_name request) = Return joint_names
    /\ name (pre_grasp_posture g) = joint_names
    /\ name (grasp_posture g) = joint_names
    /\ length (position (pre_grasp_posture g))
       = length (position (grasp_posture g))
    /\ length (position (grasp_posture g)) = length joint_names.
Proof.
  intros Hcb Hin.
  pose proof (graspPlanningCB_Forall
    (fun g => exists joint_names,
       handJointNames ps (arm_name request) = Return joint_names
       /\ name (pre_grasp_posture g) = joint_names
       /\ name (grasp_posture g) = joint_names
       /\ length (position (pre_grasp_posture g))
          = length (position (grasp_posture g))
       /\ length (position (grasp_posture g)) = length joint_names)
    node ps request listener_ listener' response) as HF.
  rewrite Forall_forall in HF. apply HF; [|exact Hcb|exact Hin].
  clear. intros model hand_id it l l' g Hc.
  apply convert_grasp_push in Hc.
  destruct Hc as [Ha (joint_names & pre & fin & Hn & Hp & _ & Hg)].
  destruct (adapt_postures_shape _ _ _ _ _ Ha Hp)
    as (Hn1 & Hn2 & _ & _ & Hl1 & Hl2).
  exists joint_names. rewrite Hg. cbn.
  repeat split; congruence.
Qed.

(** C10. Every grasp of a response carries the approach distances
    0.15 and 0.07, the same for every hand, record and request. *)
Theorem grasp_approach_distances_fixed
    (node : ObjectsDatabaseNode) (ps : ParamServer) (request : Request)
    (listener_ listener' : TransformListener) (response : Response)
    (g : Grasp) :
  graspPlanningCB node ps request listener_ = (Return response, listener') ->
  In g (grasps response) ->
  desired_approach_distance g = d_0_15 /\ min_approach_distance g = d_0_07.
Proof.
  intros Hcb Hin.
  pose proof (graspPlanningCB_Forall
    (fun g => desired_approach_distance g = d_0_15
              /\ min_approach_distance g = d_0_07)
    node ps request listener_ listener' response) as HF.
  rewrite Forall_forall in HF. apply HF; [|exact Hcb|exact Hin].
  clear. intros model hand_id it l l' g Hc.
  apply convert_grasp_push in Hc.
  destruct Hc as [_ (joint_names & pre & fin & _ & _ & _ & Hg)].
  rewrite Hg. split; reflexivity.
Qed.

(** *** The pose of a grasp *)

Lemma compose_grasp_pose_same_frame (request_pose : PoseStamped)
    (reference : string) (local_pose : Pose) (listener_ : TransformListener) :
  (frame_id request_pose =? reference)%string = true ->
  compose_grasp_pose request_pose reference local_pose listener_ =
    (Some (multiplyPoses (pose request_pose) local_pose), listener_).
Proof. intros H. unfold compose_grasp_pose. rewrite H. reflexivity. Qed.

Lemma compose_grasp_pose_other_frame (request_pose : PoseStamped)
    (reference : string) (local_pose : Pose) (listener_ : TransformListener) :
  (frame_id request_pose =? reference)%string = false ->
  compose_grasp_pose request_pose reference local_pose listener_ =
    match lookupTransform listener_ reference (frame_id request_pose)
            (ros_Time 0) with
    | (None, listener') => (None, listener')
    | (Some ref_trans, listener') =>
        (Some (multiplyPoses (poseTFToMsg ref_trans)
                 (multiplyPoses (pose request_pose) local_pose)),
         listener')
    end.
Proof. intros H. unfold compose_grasp_pose. rewrite H. reflexivity. Qed.

(** In the frame of the reference no turn touches the listener. *)
Lemma convert_grasp_same_frame (ps : ParamServer) (request : Request)
    (model : DatabaseModelPose) (hand_id : string) (it : DatabaseGrasp)
    (listener_ : TransformListener) :
  (frame_id (model_pose model) =? reference_frame_id (target request))%string
    = true ->
  snd (convert_grasp ps request model hand_id it listener_) = listener_.
Proof.
  intros H. unfold convert_grasp.
  destruct (negb _); [reflexivity|].
  destruct (handJointNames _ _) as [names|e]; [|reflexivity].
  destruct (adapt_postures _ _ _) as [[[pre fin]|]|e]; try reflexivity.
  rewrite compose_grasp_pose_same_frame by exact H. reflexivity.
Qed.

Lemma convert_loop_same_frame (ps : ParamServer) (request : Request)
    (model : DatabaseModelPose) (hand_id : string) :
  (frame_id (model_pose model) =? reference_frame_id (target request))%string
    = true ->
  forall (its : list DatabaseGrasp) (pushed : list Grasp)
         (listener_ : TransformListener),
    snd (convert_loop ps request model hand_id its pushed listener_)
    = listener_.
Proof.
  intros H its. induction its as [|it its IH]; intros pushed l;
    cbn [convert_loop]; [reflexivity|].
  pose proof (convert_grasp_same_frame ps request model hand_id it l H) as Hl.
  destruct (convert_grasp ps request model hand_id it l) as [[[|g|]|e] l1];
    cbn [snd] in Hl; subst l1; try reflexivity; apply IH.
Qed.

Lemma graspPlanningCB_same_frame (node : ObjectsDatabaseNode)
    (ps : ParamServer) (request : Request) (model : DatabaseModelPose)
    (rest : list DatabaseModelPose) (listener_ : TransformListener) :
  potential_models (target request) = model :: rest ->
  (frame_id (model_pose model) =? reference_frame_id (target request))%string
    = true ->
  snd (graspPlanningCB node ps request listener_) = listener_.
Proof.
  intros Hm H. unfold graspPlanningCB. rewrite Hm.
  destruct (database_ node) as [database|]; [|reflexivity].
  destruct (getClusterRepGrasps database _ _) as [gs|]; [|reflexivity].
  apply convert_loop_same_frame. exact H.
Qed.

(** C6. The pose of every grasp pushed is the product of the pose of
    the detection, on the left, and the pose the record has in the
    frame of the model. When the frame of the detection is the
    reference frame that product is the pose of the grasp, and the
    listener is left as it was, in the turn and in the whole request:
    no lookup is made. Otherwise the listener is asked for the
    transform with the reference frame as target and the frame of the
    detection as source, at time 0, the latest there is, and its
    answer is multiplied onto the product from the left. *)
Theorem grasp_pose_composition
    (node : ObjectsDatabaseNode) (ps : ParamServer) (request : Request)
    (model : DatabaseModelPose) (rest : list DatabaseModelPose)
    (hand_id : string) (it : DatabaseGrasp)
    (listener_ listener' : TransformListener) (g : Grasp) :
  potential_models (target request) = model :: rest ->
  convert_grasp ps request model hand_id it listener_
    = (Return (Push g), listener') ->
  let detection := model_pose model in
  let reference := reference_frame_id (target request) in
  let composed := multiplyPoses (pose detection) (final_grasp_pose_ it) in
  (frame_id detection = reference ->
   grasp_pose g = composed /\ listener' = listener_
   /\ snd (graspPlanningCB node ps request listener_) = listener_)
  /\ (frame_id detection <> reference ->
      exists ref_trans,
        lookupTransform listener_ reference (frame_id detection) (ros_Time 0)
          = (Some ref_trans, listener')
        /\ grasp_pose g = multiplyPoses (poseTFToMsg ref_trans) composed).
Proof.
  intros Hm Hc. cbv zeta.
  apply convert_grasp_push in Hc.
  destruct Hc as [_ (joint_names & pre & fin & _ & _ & Hpose & _)].
  split.
  - intros Hf. apply String.eqb_eq in Hf.
    rewrite compose_grasp_pose_same_frame in Hpose by exact Hf.
    injection Hpose as Hp Hl.
    split; [symmetry; exact Hp|]. split; [symmetry; exact Hl|].
    eapply graspPlanningCB_same_frame; eassumption.
  - intros Hf. apply String.eqb_neq in Hf.
    rewrite compose_grasp_pose_other_frame in Hpose by exact Hf.
    destruct (lookupTransform _ _ _ _) as [[ref_trans|] l1];
      [|discriminate].
    injection Hpose as Hp Hl. subst l1.
    exists ref_trans. split; [reflexivity | symmetry; exact Hp].
Qed.

(** *** Parameters that are not there *)



End Callback.


(** ** More on the grasp filter *)

Section FilterMore.

Context {tf : TF}.

Lemma filter_filter {A} (f : A -> bool) (l : list A) :
  filter f (filter f l) = filter f l.
Proof.
  induction l as [|x l IH]; [reflexivity|].
  cbn [filter]. destruct (f x) eqn:Hx; [|exact IH].
  cbn [filter]. rewrite Hx, IH. reflexivity.
Qed.

Lemma filter_none {A} (f : A -> bool) (l : list A) :
  filter (fun x => negb (f x)) (filter f l) = [].
Proof.
  induction l as [|x l IH]; [reflexivity|].
  cbn [filter]. destruct (f x) eqn:Hx; [|exact IH].
  cbn [filter]. rewrite Hx, IH. reflexivity.
Qed.

(** X1. Filtering two lists one after the other filters their
    concatenation: the records kept are those kept of the first
    followed by those kept of the second, and the counts of removed
    records add up. *)
Theorem pruneGraspList_concatenation
    (grasps1 grasps2 : list DatabaseGrasp) (gt tc : double) :
  fst (pruneGraspList (grasps1 ++ grasps2) gt tc)
  = fst (pruneGraspList grasps1 gt tc) ++ fst (pruneGraspList grasps2 gt tc)
  /\ snd (pruneGraspList (grasps1 ++ grasps2) gt tc)
     = (snd (pruneGraspList grasps1 gt tc)
        + snd (pruneGraspList grasps2 gt tc))%Z.
Proof.
  unfold pruneGraspList. rewrite !prune_loop_filter. cbn [fst snd app].
  rewrite !filter_app, length_app, Nat2Z.inj_add. split; [reflexivity | lia].
Qed.

(** X2. Filtering what the filter kept changes nothing and removes no
    record. *)
Theorem pruneGraspList_idempotent
    (grasps : list DatabaseGrasp) (gt tc gt' tc' : double) :
  pruneGraspList (fst (pruneGraspList grasps gt tc)) gt' tc'
  = (fst (pruneGraspList grasps gt tc), 0%Z).
Proof.
  unfold pruneGraspList. rewrite !prune_loop_filter. cbn [fst app].
  rewrite filter_filter, filter_none. reflexivity.
Qed.

End FilterMore.

(** ** More on the hand description *)

(** X3. An array of strings stored under a name is read back as those
    strings, in their order; the joint names of an arm are read under
    /hand_description/<arm>/hand_joints. *)
Theorem getVectorParam_reads_string_array
    (ps : ParamServer) (name_ arm : string) (values : list string) :
  (ps name_ = Some (TypeArray (map TypeString values)) ->
   getVectorParam ps name_ = Return values)
  /\ handJointNames ps arm
     = getVectorParam ps ("/hand_description/" ++ arm ++ "/hand_joints")%string.
Proof.
  split; [|reflexivity].
  intros H. unfold getVectorParam. rewrite H.
  cbn [xml_size bind]. rewrite length_map.
  apply (getVectorParam_loop_strings _ values [] []). reflexivity.
Qed.

Lemma getVectorParam_loop_scalar (l : list XmlRpcValue)
    (after : list XmlRpcValue) :
  forall (before done_ values : list string) (n : nat),
    l = map TypeString (done_ ++ before) ++ TypeScalar :: after ->
    length before < n ->
    getVectorParam_loop (TypeArray l) n (length done_) values
    = Raise XmlRpcException.
Proof.
  intros before. induction before as [|s before IH];
    intros done_ values n Hl Hn.
  - destruct n as [|n]; [cbn in Hn; lia|].
    cbn [getVectorParam_loop xml_index bind].
    assert (Hnth : nth (length done_) l TypeInvalid = TypeScalar).
    { subst l. rewrite app_nil_r.
      rewrite app_nth2; rewrite length_map; [|lia].
      rewrite Nat.sub_diag. reflexivity. }
    rewrite Hnth. reflexivity.
  - destruct n as [|n]; [cbn in Hn; lia|].
    cbn [getVectorParam_loop xml_index bind].
    assert (Hnth : nth (length done_) l TypeInvalid = TypeString s).
    { subst l. rewrite map_app, <- app_assoc.
      rewrite app_nth2; rewrite length_map; [|lia].
      rewrite Nat.sub_diag. reflexivity. }
    rewrite Hnth. cbn [xml_string bind].
    replace (S (length done_)) with (length (done_ ++ [s]))
      by (rewrite length_app; cbn; lia).
    apply IH; [|cbn in Hn; lia].
    rewrite <- app_assoc. exact Hl.
Qed.

(** X4. Reading a list of strings throws the exception of XmlRpc when
    nothing is stored under the name, when a number or a boolean is
    stored under it, and when the array stored under it holds one; it
    throws no other exception. *)
Theorem getVectorParam_throws
    (ps : ParamServer) (name_ : string) :
  (ps name_ = None -> getVectorParam ps name_ = Raise XmlRpcException)
  /\ (ps name_ = Some TypeScalar ->
      getVectorParam ps name_ = Raise XmlRpcException)
  /\ (forall before after,
        ps name_ = Some (TypeArray (map TypeString before
                                    ++ TypeScalar :: after)) ->
        getVectorParam ps name_ = Raise XmlRpcException)
  /\ (forall e, getVectorParam ps name_ = Raise e -> e = XmlRpcException).
Proof.
  split; [intros H; unfold getVectorParam; rewrite H; reflexivity|].
  split; [intros H; unfold getVectorParam; rewrite H; reflexivity|].
  split.
  - intros before after H. unfold getVectorParam. rewrite H.
    cbn [xml_size bind].
    apply (getVectorParam_loop_scalar _ after before [] []);
      [reflexivity|].
    rewrite length_app, length_map. cbn. lia.
  - intros e. unfold getVectorParam.
    match goal with |- context [xml_size ?v] => generalize v end.
    intros v. destruct (xml_size v) as [n|e1] eqn:Hs; cbn [bind].
    + apply getVectorParam_loop_raises.
    + intros H. injection H as <-. eapply xml_size_raises; eassumption.
Qed.

(** ** More on the postures *)

Section PosturesMore.

Context {tf : TF}.

Lemma resize_nil {A} (n : nat) (fill : A) :
  Vector.resize n fill [] = repeat fill n.
Proof.
  unfold Vector.resize. rewrite firstn_nil, Nat.sub_0_r. reflexivity.
Qed.

(** X5. Under the strategy of the parallel jaw, with four joint names
    and one raw value in each posture, both postures get four
    positions, each the one raw value of its posture. When the names
    are not four or the final posture has not one value, the record is
    passed over. *)
Theorem parallel_jaw_postures (joint_names : list string)
    (it : DatabaseGrasp) :
  length (pre_grasp_posture_ it) = length (final_grasp_posture_ it) ->
  (length joint_names = 4 -> length (final_grasp_posture_ it) = 1 ->
   exists a b : double,
     pre_grasp_posture_ it = [a] /\ final_grasp_posture_ it = [b]
     /\ adapt_postures "WILLOW_GRIPPER_2010" joint_names it =
        Return (Some ({| name := joint_names; position := [a; a; a; a];
                         effort := [] |},
                      {| name := joint_names; position := [b; b; b; b];
                         effort := [] |})))
  /\ (length joint_names <> 4 \/ length (final_grasp_posture_ it) <> 1 ->
      adapt_postures "WILLOW_GRIPPER_2010" joint_names it = Return None).
Proof.
  intros Hlen. split.
  - intros Hn Hf. rewrite Hf in Hlen.
    destruct (pre_grasp_posture_ it) as [|a [|? ?]] eqn:Hpre;
      try discriminate.
    destruct (final_grasp_posture_ it) as [|b [|? ?]] eqn:Hfin;
      try discriminate.
    exists a, b. split; [reflexivity|]. split; [reflexivity|].
    unfold adapt_postures. rewrite Hpre, Hfin, Hn. reflexivity.
  - intros Hskip. unfold adapt_postures.
    cbn [String.eqb Ascii.eqb Bool.eqb negb].
    destruct (length joint_names =? 4) eqn:Hn; cbn [negb orb];
      [|reflexivity].
    destruct (length (final_grasp_posture_ it) =? 1) eqn:Hf; cbn [negb];
      [|reflexivity].
    apply Nat.eqb_eq in Hn, Hf. destruct Hskip; contradiction.
Qed.

(** X6. Under any hand other than the two the code names, the raw
    postures are copied as they are when the final posture has as many
    values as the hand has joint names, and the record is passed over
    when it has not. *)
Theorem direct_mapped_postures (hand_id : string)
    (joint_names : list string) (it : DatabaseGrasp) :
  hand_id <> "Schunk" -> hand_id <> "WILLOW_GRIPPER_2010" ->
  (length joint_names = length (final_grasp_posture_ it) ->
   adapt_postures hand_id joint_names it =
     Return (Some ({| name := joint_names;
                      position := pre_grasp_posture_ it; effort := [] |},
                   {| name := joint_names;
                      position := final_grasp_posture_ it; effort := [] |})))
  /\ (length joint_names <> length (final_grasp_posture_ it) ->
      adapt_postures hand_id joint_names it = Return None).
Proof.
  intros H1 H2. apply String.eqb_neq in H1, H2.
  unfold adapt_postures. rewrite H1, H2. cbn [negb].
  split; intros H.
  - apply Nat.eqb_eq in H. rewrite H. reflexivity.
  - apply Nat.eqb_neq in H. rewrite H. reflexivity.
Qed.

(** The positions the underactuated hand is given lie inside the
    limits of its joints. *)
Lemma schunk_positions_within (v p : list double) :
  schunk_positions v = Return p ->
  exists p0 rest,
    p = p0 :: rest /\ length rest = 6
    /\ within d_0_0 d_1_5707 p0 = true
    /\ forallb (within d_m1_5707 d_1_5707) rest = true.
Proof.
  intros H. destruct (Nat.lt_ge_cases (length v) 8) as [Hs|Hl].
  - rewrite schunk_positions_short in H by assumption. discriminate.
  - rewrite schunk_positions_long in H by assumption.
    injection H as <-. eexists; eexists.
    split; [reflexivity|]. split; [reflexivity|].
    assert (H0 : forall x, within d_0_0 d_1_5707 (clamp_first x) = true).
    { intros x. destruct (DoubleFacts.clamp_0 x) as [(Ha & Hb & _) _].
      unfold within. rewrite Ha, Hb. reflexivity. }
    assert (Hm : forall x, within d_m1_5707 d_1_5707 (clamp_other x) = true).
    { intros x. destruct (DoubleFacts.clamp_m x) as [(Ha & Hb & _) _].
      unfold within. rewrite Ha, Hb. reflexivity. }
    split; [apply H0|]. cbn [forallb]. rewrite !Hm. reflexivity.
Qed.

End PosturesMore.

(** ** More on the request *)

Section CallbackMore.

Context {tf : TF}.

(** The grasps of a response were pushed, in their order, by turns of
    the loop on records of the list, in the order of the list. *)
Lemma convert_loop_trace (ps : ParamServer) (request : Request)
    (model : DatabaseModelPose) (hand_id : string) :
  forall (its : list DatabaseGrasp) (pushed : list Grasp)
         (listener_ listener' : TransformListener) (response : Response),
    convert_loop ps request model hand_id its pushed listener_
      = (Return response, listener') ->
    exists its' gs,
      Subsequence its' its /\ grasps response = pushed ++ gs
      /\ Forall2 (pushed_by ps request model hand_id) its' gs.
Proof.
  intros its. induction its as [|it its IH]; intros pushed l l' response;
    cbn [convert_loop].
  - intros H. injection H as <- _. exists [], [].
    split; [constructor|]. split; [symmetry; apply app_nil_r | constructor].
  - destruct (convert_grasp ps request model hand_id it l)
      as [[[|g|]|e] l1] eqn:Hc.
    + intros H. destruct (IH _ _ _ _ H) as (its' & gs & Hs & Hg & HF).
      exists its', gs. split; [constructor; exact Hs | auto].
    + intros H. destruct (IH _ _ _ _ H) as (its' & gs & Hs & Hg & HF).
      exists (it :: its'), (g :: gs).
      split; [constructor; exact Hs|].
      split; [rewrite Hg, <- app_assoc; reflexivity|].
      constructor; [exists l, l1; exact Hc | exact HF].
    + intros H. injection H as <- _. exists [], [].
      split; [|split; [symmetry; apply app_nil_r | constructor]].
      clear. induction (it :: its); constructor; assumption.
    + discriminate.
Qed.

Lemma pushed_by_success_probability (ps : ParamServer) (request : Request)
    (model : DatabaseModelPose) (hand_id : string)
    (its : list DatabaseGrasp) (gs : list Grasp) :
  Forall2 (pushed_by ps request model hand_id) its gs ->
  map success_probability gs = map scaled_quality_ its.
Proof.
  induction 1 as [|it g its gs (l & l' & Hc) _ IH]; [reflexivity|].
  cbn [map]. rewrite IH. f_equal.
  apply convert_grasp_push in Hc.
  destruct Hc as [_ (names & pre & fin & _ & _ & _ & Hg)].
  rewrite Hg. reflexivity.
Qed.

(** What holds of every grasp a turn pushes under the hand of the arm
    holds of every grasp of the response. *)
Lemma graspPlanningCB_Forall_hand (P : Grasp -> Prop)
    (node : ObjectsDatabaseNode) (ps : ParamServer) (request : Request)
    (listener_ listener' : TransformListener) (response : Response) :
  (forall model it l l' g,
      convert_grasp ps request model
        (handDatabaseName ps (arm_name request)) it l
        = (Return (Push g), l') ->
      P g) ->
  graspPlanningCB node ps request listener_ = (Return response, listener') ->
  Forall P (grasps response).
Proof.
  intros Hstep. unfold graspPlanningCB.
  destruct (database_ node) as [database|];
    [|intros H; injection H as <- _; constructor].
  destruct (potential_models (target request)) as [|model rest];
    [intros H; injection H as <- _; constructor|].
  destruct (getClusterRepGrasps database _ _) as [gs|];
    [|intros H; injection H as <- _; constructor].
  apply convert_loop_Forall; [apply Hstep | constructor].
Qed.

(** X7. Under the underactuated hand every grasp of a response has,
    in both postures, a first position in [0, 1.5707] and six more in
    [-1.5707, 1.5707], whatever the raw values are: no position is
    outside the limits, and none is a NaN. *)
Theorem underactuated_positions_within_limits
    (node : ObjectsDatabaseNode) (ps : ParamServer) (request : Request)
    (listener_ listener' : TransformListener) (response : Response)
    (g : Grasp) :
  handDatabaseName ps (arm_name request) = "Schunk" ->
  graspPlanningCB node ps request listener_ = (Return response, listener') ->
  In g (grasps response) ->
  (exists p0 rest,
     position (pre_grasp_posture g) = p0 :: rest /\ length rest = 6
     /\ within d_0_0 d_1_5707 p0 = true
     /\ forallb (within d_m1_5707 d_1_5707) rest = true)
  /\ (exists p0 rest,
        position (grasp_posture g) = p0 :: rest /\ length rest = 6
        /\ within d_0_0 d_1_5707 p0 = true
        /\ forallb (within d_m1_5707 d_1_5707) rest = true).
Proof.
  intros Hhand Hcb Hin.
  pose proof (graspPlanningCB_Forall_hand
    (fun g =>
       (exists p0 rest,
          position (pre_grasp_posture g) = p0 :: rest /\ length rest = 6
          /\ within d_0_0 d_1_5707 p0 = true
          /\ forallb (within d_m1_5707 d_1_5707) rest = true)
       /\ (exists p0 rest,
             position (grasp_posture g) = p0 :: rest /\ length rest = 6
             /\ within d_0_0 d_1_5707 p0 = true
             /\ forallb (within d_m1_5707 d_1_5707) rest = true))
    node ps request listener_ listener' response) as HF.
  rewrite Forall_forall in HF. apply HF; [|exact Hcb|exact Hin].
  clear - Hhand. intros model it l l' g Hc. rewrite Hhand in Hc.
  apply convert_grasp_push in Hc.
  destruct Hc as [_ (names & pre & fin & _ & Hp & _ & Hg)].
  rewrite Hg. cbn [pre_grasp_posture grasp_posture position].
  unfold adapt_postures in Hp.
  cbn [String.eqb Ascii.eqb Bool.eqb] in Hp.
  destruct (negb (length names =? 7)); [discriminate|].
  destruct (negb (length (final_grasp_posture_ it) =? 8)); [discriminate|].
  destruct (schunk_positions (pre_grasp_posture_ it)) as [p|] eqn:Hpp;
    cbn [bind] in Hp; [|discriminate].
  destruct (schunk_positions (final_grasp_posture_ it)) as [q|] eqn:Hq;
    cbn [bind] in Hp; [|discriminate].
  injection Hp as <- <-. cbn [position].
  split; eapply schunk_positions_within; eassumption.
Qed.

(** X8. Every grasp of a response carries the effort 100 for each
    joint of the hand in its pre-grasp posture and the effort 50 for
    each joint in its grasp posture. *)
Theorem grasp_efforts_fixed
    (node : ObjectsDatabaseNode) (ps : ParamServer) (request : Request)
    (listener_ listener' : TransformListener) (response : Response)
    (g : Grasp) :
  graspPlanningCB node ps request listener_ = (Return response, listener') ->
  In g (grasps response) ->
  exists joint_names,
    handJointNames ps (arm_name request) = Return joint_names
    /\ effort (pre_grasp_posture g) = repeat d_100 (length joint_names)
    /\ effort (grasp_posture g) = repeat d_50 (length joint_names).
Proof.
  intros Hcb Hin.
  pose proof (graspPlanningCB_Forall
    (fun g => exists joint_names,
       handJointNames ps (arm_name request) = Return joint_names
       /\ effort (pre_grasp_posture g) = repeat d_100 (length joint_names)
       /\ effort (grasp_posture g) = repeat d_50 (length joint_names))
    node ps request listener_ listener' response) as HF.
  rewrite Forall_forall in HF. apply HF; [|exact Hcb|exact Hin].
  clear. intros model hand_id it l l' g Hc.
  apply convert_grasp_push in Hc.
  destruct Hc as [Ha (joint_names & pre & fin & Hn & Hp & _ & Hg)].
  destruct (adapt_postures_shape _ _ _ _ _ Ha Hp)
    as (_ & _ & He1 & He2 & _ & _).
  exists joint_names. rewrite Hg. cbn.
  rewrite He1, He2, !resize_nil. auto.
Qed.

(** X9. The grasps of a response come from records the database
    returned for the first candidate and the hand of the arm and the
    filter kept, one grasp from one record and in the order of the
    records: the success probabilities of the grasps, in order, are
    the scaled qualities of those records. *)
Theorem grasps_follow_surviving_records
    (node : ObjectsDatabaseNode) (database : ObjectsDatabase)
    (ps : ParamServer) (request : Request)
    (model : DatabaseModelPose) (rest : list DatabaseModelPose)
    (fetched : list DatabaseGrasp)
    (listener_ listener' : TransformListener) (response : Response) :
  database_ node = Some database ->
  potential_models (target request) = model :: rest ->
  getClusterRepGrasps database (model_id model)
    (handDatabaseName ps (arm_name request)) = Some fetched ->
  graspPlanningCB node ps request listener_ = (Return response, listener') ->
  exists its,
    Subsequence its (filter below_threshold fetched)
    /\ Forall2 (pushed_by ps request model
                  (handDatabaseName ps (arm_name request)))
         its (grasps response)
    /\ map success_probability (grasps response) = map scaled_quality_ its
    /\ length (grasps response) <= length fetched.
Proof.
  intros Hd Hm Hg. unfold graspPlanningCB.
  rewrite Hd, Hm, Hg, pruneGraspList_filter. intros Hl.
  apply convert_loop_trace in Hl.
  destruct Hl as (its & gs & Hs & Hgr & HF). cbn [app] in Hgr. subst gs.
  exists its. split; [exact Hs|]. split; [exact HF|].
  split; [eapply pushed_by_success_probability; exact HF|].
  rewrite <- (Forall2_length HF).
  transitivity (length (filter below_threshold fetched));
    [|apply filter_length_le].
  clear - Hs. induction Hs; cbn [length]; lia.
Qed.

(** A turn of the loop reads the arm name and the reference frame of
    the request, and no other field of it. *)
Lemma convert_grasp_request (ps : ParamServer) (request1 request2 : Request)
    (model : DatabaseModelPose) (hand_id : string) (it : DatabaseGrasp)
    (listener_ : TransformListener) :
  arm_name request1 = arm_name request2 ->
  reference_frame_id (target request1) = reference_frame_id (target request2) ->
  convert_grasp ps request1 model hand_id it listener_
  = convert_grasp ps request2 model hand_id it listener_.
Proof. intros Ha Hr. unfold convert_grasp. rewrite Ha, Hr. reflexivity. Qed.

Lemma convert_loop_request (ps : ParamServer) (request1 request2 : Request)
    (model : DatabaseModelPose) (hand_id : string) :
  arm_name request1 = arm_name request2 ->
  reference_frame_id (target request1) = reference_frame_id (target request2) ->
  forall (its : list DatabaseGrasp) (pushed : list Grasp)
         (listener_ : TransformListener),
    convert_loop ps request1 model hand_id its pushed listener_
    = convert_loop ps request2 model hand_id its pushed listener_.
Proof.
  intros Ha Hr its. induction its as [|it its IH]; intros pushed l;
    cbn [convert_loop]; [reflexivity|].
  rewrite (convert_grasp_request ps request1 request2) by assumption.
  destruct (convert_grasp ps request2 model hand_id it l)
    as [[[|g|]|e] l1]; try reflexivity; apply IH.
Qed.

(** X10. Of the candidate models of a request the first alone is
    used: two requests for the same arm and reference frame whose
    lists of candidates start with the same model end the same,
    whatever candidates follow. *)
Theorem first_candidate_only
    (node : ObjectsDatabaseNode) (ps : ParamServer)
    (request1 request2 : Request) (model : DatabaseModelPose)
    (rest1 rest2 : list DatabaseModelPose) (listener_ : TransformListener) :
  arm_name request1 = arm_name request2 ->
  reference_frame_id (target request1) = reference_frame_id (target request2) ->
  potential_models (target request1) = model :: rest1 ->
  potential_models (target request2) = model :: rest2 ->
  graspPlanningCB node ps request1 listener_
  = graspPlanningCB node ps request2 listener_.
Proof.
  intros Ha Hr H1 H2. unfold graspPlanningCB. rewrite H1, H2, Ha.
  destruct (database_ node) as [database|]; [|reflexivity].
  destruct (getClusterRepGrasps database _ _) as [gs|]; [|reflexivity].
  apply convert_loop_request; assumption.
Qed.

(** The loop in the frame of the reference: one grasp for each record
    the hand gives postures. *)
Lemma convert_loop_in_frame (ps : ParamServer) (request : Request)
    (model : DatabaseModelPose) (hand_id : string)
    (joint_names : list string) :
  handJointNames ps (arm_name request) = Return joint_names ->
  (frame_id (model_pose model) =? reference_frame_id (target request))%string
    = true ->
  forall (its : list DatabaseGrasp) (pushed : list Grasp)
         (listener_ : TransformListener),
    forallb assert_ok its = true ->
    convert_loop ps request model hand_id its pushed listener_ =
      (Return {| grasps :=
                   pushed ++ flat_map (grasp_in_frame hand_id joint_names
                                         (pose (model_pose model))) its;
                 error_code := SUCCESS |},
       listener_).
Proof.
  intros Hn Hf its. induction its as [|it its IH]; intros pushed l Ha.
  - cbn. rewrite app_nil_r. reflexivity.
  - cbn [forallb] in Ha. apply andb_true_iff in Ha. destruct Ha as [Ha Has].
    cbn [convert_loop flat_map]. unfold convert_grasp, grasp_in_frame.
    pose proof Ha as Ha'. unfold assert_ok in Ha'. rewrite Ha', Hn.
    cbn [negb].
    destruct (adapt_postures_returns hand_id joint_names it Ha) as [o Ho].
    rewrite Ho. destruct o as [[pre fin]|].
    + destruct (adapt_postures_shape _ _ _ _ _ Ha Ho)
        as (Hn1 & Hn2 & He1 & He2 & _ & _).
      rewrite compose_grasp_pose_same_frame by exact Hf.
      rewrite IH by exact Has.
      rewrite Hn1, Hn2, He1, He2, !resize_nil, <- app_assoc. reflexivity.
    + rewrite IH by exact Has. reflexivity.
Qed.

(** X11. A request whose detection is in the reference frame, on a
    connected database that answers, with the joint names of the hand
    in place and records that pass the assertion, succeeds: the
    response holds, in the order of the records, one grasp for each
    record that the filter keeps and the hand gives postures, with the
    pose of the detection multiplied onto the pose of the record, and
    the listener is left alone. *)
Theorem same_frame_request_succeeds
    (node : ObjectsDatabaseNode) (database : ObjectsDatabase)
    (ps : ParamServer) (request : Request)
    (model : DatabaseModelPose) (rest : list DatabaseModelPose)
    (fetched : list DatabaseGrasp) (joint_names : list string)
    (listener_ : TransformListener) :
  database_ node = Some database ->
  potential_models (target request) = model :: rest ->
  getClusterRepGrasps database (model_id model)
    (handDatabaseName ps (arm_name request)) = Some fetched ->
  handJointNames ps (arm_name request) = Return joint_names ->
  forallb assert_ok (filter below_threshold fetched) = true ->
  frame_id (model_pose model) = reference_frame_id (target request) ->
  graspPlanningCB node ps request listener_ =
    (Return {| grasps :=
                 flat_map (grasp_in_frame
                             (handDatabaseName ps (arm_name request))
                             joint_names (pose (model_pose model)))
                   (filter below_threshold fetched);
               error_code := SUCCESS |},
     listener_).
Proof.
  intros Hd Hm Hg Hn Ha Hf. unfold graspPlanningCB.
  rewrite Hd, Hm, Hg, pruneGraspList_filter.
  apply String.eqb_eq in Hf.
  rewrite (convert_loop_in_frame ps request model _ joint_names)
    by assumption.
  reflexivity.
Qed.

(** The loop in another frame than the reference: the grasps of the
    records the hand gives postures, as far as the listener answers. *)
Lemma convert_loop_answered (ps : ParamServer) (request : Request)
    (model : DatabaseModelPose) (hand_id : string)
    (joint_names : list string) :
  handJointNames ps (arm_name request) = Return joint_names ->
  (frame_id (model_pose model) =? reference_frame_id (target request))%string
    = false ->
  forall (its : list DatabaseGrasp) (pushed : list Grasp)
         (listener_ : TransformListener),
    forallb assert_ok its = true ->
    exists gs listener',
      convert_loop ps request model hand_id its pushed listener_ =
        (Return {| grasps := pushed ++ gs;
                   error_code :=
                     if answered (reference_frame_id (target request))
                          (frame_id (model_pose model))
                          (length (filter (adapts hand_id joint_names) its))
                          listener_
                        =? length (filter (adapts hand_id joint_names) its)
                     then SUCCESS else OTHER_ERROR |},
         listener')
      /\ Forall2 (pushed_by ps request model hand_id)
           (firstn (answered (reference_frame_id (target request))
                      (frame_id (model_pose model))
                      (length (filter (adapts hand_id joint_names) its))
                      listener_)
              (filter (adapts hand_id joint_names) its))
           gs.
Proof.
  intros Hn Hf its. induction its as [|it its IH]; intros pushed l Ha.
  - exists [], l. cbn. rewrite app_nil_r. split; [reflexivity|constructor].
  - cbn [forallb] in Ha. apply andb_true_iff in Ha. destruct Ha as [Ha Has].
    destruct (adapt_postures_returns hand_id joint_names it Ha) as [o Ho].
    cbn [filter].
    destruct o as [[pre fin]|].
    + assert (Had : adapts hand_id joint_names it = true)
        by (unfold adapts; rewrite Ho; reflexivity).
      rewrite Had. cbn [length answered].
      destruct (convert_grasp ps request model hand_id it l)
        as [step l1] eqn:Hc.
      pose proof Hc as Hc'. unfold convert_grasp in Hc'.
      pose proof Ha as Ha'. unfold assert_ok in Ha'.
      rewrite Ha', Hn, Ho in Hc'. cbn [negb] in Hc'.
      rewrite compose_grasp_pose_other_frame in Hc' by exact Hf.
      destruct (lookupTransform l _ _ _) as [[ref_trans|] l2].
      * injection Hc' as <- <-.
        match type of Hc with
        | _ = (Return (Push ?g), _) =>
            destruct (IH (pushed ++ [g]) l2 Has) as (gs & l' & Hl & HF);
              exists (g :: gs), l'
        end.
        cbn [convert_loop]. rewrite Hc.
        rewrite Hl, <- app_assoc. cbn [firstn Nat.eqb app].
        split; [reflexivity|].
        constructor; [exists l, l2; exact Hc | exact HF].
      * injection Hc' as <- <-.
        exists [], l2. cbn [convert_loop]. rewrite Hc.
        cbn [firstn Nat.eqb]. rewrite app_nil_r.
        split; [reflexivity|constructor].
    + assert (Had : adapts hand_id joint_names it = false)
        by (unfold adapts; rewrite Ho; reflexivity).
      rewrite Had.
      rewrite (convert_loop_continue ps request model hand_id joint_names)
        by assumption.
      apply IH. exact Has.
Qed.

(** X12. A request whose detection is in another frame than the
    reference, on a connected database that answers, with the joint
    names in place and records that pass the assertion, returns a
    response. The listener is asked once for each record that the
    filter keeps and the hand gives postures, until it fails to
    answer: the response holds the grasps of the records it answered
    for, in order; its code is SUCCESS when the listener answered for
    every one of them and OTHER_ERROR when it did not. *)
Theorem other_frame_request_answers
    (node : ObjectsDatabaseNode) (database : ObjectsDatabase)
    (ps : ParamServer) (request : Request)
    (model : DatabaseModelPose) (rest : list DatabaseModelPose)
    (fetched : list DatabaseGrasp) (joint_names : list string)
    (listener_ : TransformListener) :
  database_ node = Some database ->
  potential_models (target request) = model :: rest ->
  getClusterRepGrasps database (model_id model)
    (handDatabaseName ps (arm_name request)) = Some fetched ->
  handJointNames ps (arm_name request) = Return joint_names ->
  forallb assert_ok (filter below_threshold fetched) = true ->
  frame_id (model_pose model) <> reference_frame_id (target request) ->
  let hand_id := handDatabaseName ps (arm_name request) in
  let adaptable :=
    filter (adapts hand_id joint_names) (filter below_threshold fetched) in
  let k := answered (reference_frame_id (target request))
             (frame_id (model_pose model)) (length adaptable) listener_ in
  exists response listener',
    graspPlanningCB node ps request listener_ = (Return response, listener')
    /\ error_code response
       = (if k =? length adaptable then SUCCESS else OTHER_ERROR)
    /\ length (grasps response) = k
    /\ Forall2 (pushed_by ps request model hand_id)
         (firstn k adaptable) (grasps response).
Proof.
  intros Hd Hm Hg Hn Ha Hf. cbv zeta. unfold graspPlanningCB.
  rewrite Hd, Hm, Hg, pruneGraspList_filter.
  apply String.eqb_neq in Hf.
  destruct (convert_loop_answered ps request model
              (handDatabaseName ps (arm_name request)) joint_names Hn Hf
              (filter below_threshold fetched) [] listener_ Ha)
    as (gs & l' & Hl & HF).
  rewrite Hl. eexists; eexists. split; [reflexivity|].
  cbn [error_code grasps app]. split; [reflexivity|].
  split; [|exact HF].
  rewrite <- (Forall2_length HF). rewrite length_firstn.
  apply Nat.min_l.
  generalize (length (filter (adapts (handDatabaseName ps (arm_name request))
                                joint_names)
                        (filter below_threshold fetched))).
  clear. intros n. revert listener_.
  induction n as [|n IH]; intros l; cbn [answered]; [lia|].
  destruct (lookupTransform l _ _ _) as [[t|] l1]; [|lia].
  specialize (IH l1). lia.
Qed.

(** X13. The loop over a list of records followed by another is the
    loop over the first, and then, when that ends with SUCCESS, the
    loop over the second from the grasps pushed and the listener
    reached; a failure or an exception in the first is the end. *)
Theorem convert_loop_concatenation
    (ps : ParamServer) (request : Request) (model : DatabaseModelPose)
    (hand_id : string) (its1 its2 : list DatabaseGrasp)
    (pushed : list Grasp) (listener_ : TransformListener) :
  convert_loop ps request model hand_id (its1 ++ its2) pushed listener_ =
    match convert_loop ps request model hand_id its1 pushed listener_ with
    | (Return response, listener') =>
        match error_code response with
        | SUCCESS =>
            convert_loop ps request model hand_id its2 (grasps response)
              listener'
        | OTHER_ERROR => (Return response, listener')
        end
    | (Raise e, listener') => (Raise e, listener')
    end.
Proof.
  revert pushed listener_.
  induction its1 as [|it its1 IH]; intros pushed l; [reflexivity|].
  cbn [app convert_loop].
  destruct (convert_grasp ps request model hand_id it l)
    as [[[|g|]|e] l1]; try reflexivity; apply IH.
Qed.

(** X14. A request ends with a response or with one of two
    exceptions: the failed assertion on a record whose two postures
    differ in length, or the exception of XmlRpc out of the joint
    names. No read outside a vector and no [std::out_of_range]
    escapes. *)
Theorem only_assertion_and_xmlrpc_escape
    (node : ObjectsDatabaseNode) (ps : ParamServer) (request : Request)
    (listener_ listener' : TransformListener) (e : Exception) :
  graspPlanningCB node ps request listener_ = (Raise e, listener') ->
  e = AssertionFailure \/ e = XmlRpcException.
Proof.
  unfold graspPlanningCB.
  destruct (database_ node) as [database|]; [|discriminate].
  destruct (potential_models (target request)) as [|model rest];
    [discriminate|].
  destruct (getClusterRepGrasps database _ _) as [fetched|];
    [|discriminate].
  generalize (fst (pruneGraspList fetched (prune_gripper_opening_ node)
                     (prune_table_clearance_ node))).
  generalize (@nil Grasp). intros pushed its. revert pushed listener_.
  induction its as [|it its IH]; intros pushed l; cbn [convert_loop];
    [discriminate|].
  destruct (convert_grasp ps request model _ it l)
    as [[[|g|]|e1] l1] eqn:Hc; try apply IH; try discriminate.
  intros H. injection H as <- _.
  unfold convert_grasp in Hc.
  destruct (length (final_grasp_posture_ it)
            =? length (pre_grasp_posture_ it)) eqn:Ha; cbn [negb] in Hc.
  - destruct (handJointNames ps (arm_name request)) as [names|e2] eqn:Hn.
    + destruct (adapt_postures_returns
                  (handDatabaseName ps (arm_name request)) names it Ha)
        as [o Ho].
      rewrite Ho in Hc. destruct o as [[pre fin]|]; [|discriminate].
      destruct (compose_grasp_pose _ _ _ _) as [[p|] l2]; discriminate.
    + injection Hc as <- _. right.
      eapply handJointNames_raises. exact Hn.
  - injection Hc as <- _. left. reflexivity.
Qed.

End CallbackMore.

(** ** The causes of a failure *)

Section CallbackCauses.

Context {tf : TF}.

(** In the frame of the reference the loop does not fail. *)
Lemma convert_loop_same_frame_code (ps : ParamServer) (request : Request)
    (model : DatabaseModelPose) (hand_id : string) :
  (frame_id (model_pose model) =? reference_frame_id (target request))%string
    = true ->
  forall (its : list DatabaseGrasp) (pushed : list Grasp)
         (listener_ listener' : TransformListener) (response : Response),
    convert_loop ps request model hand_id its pushed listener_
      = (Return response, listener') ->
    error_code response = SUCCESS.
Proof.
  intros Hf its. induction its as [|it its IH];
    intros pushed l l' response; cbn [convert_loop].
  - intros H. injection H as <- _. reflexivity.
  - destruct (convert_grasp ps request model hand_id it l)
      as [[[|g|]|e] l1] eqn:Hc; try apply IH; try discriminate.
    exfalso. unfold convert_grasp in Hc.
    destruct (negb _); [discriminate|].
    destruct (handJointNames _ _) as [names|e]; [|discriminate].
    destruct (adapt_postures _ _ _) as [[[pre fin]|]|e]; try discriminate.
    rewrite compose_grasp_pose_same_frame in Hc by exact Hf. discriminate.
Qed.

(** X20. A response with OTHER_ERROR has one of four causes: the
    database is not connected, the request names no candidate model,
    the database refuses the query for the grasps of the first
    candidate, or the first candidate is detected in another frame
    than the reference frame. In the reference frame, with a database
    that answers, no response carries OTHER_ERROR. *)
Theorem failure_causes
    (node : ObjectsDatabaseNode) (ps : ParamServer) (request : Request)
    (listener_ listener' : TransformListener) (response : Response) :
  graspPlanningCB node ps request listener_ = (Return response, listener') ->
  error_code response = OTHER_ERROR ->
  database_ node = None
  \/ potential_models (target request) = []
  \/ exists database model rest,
       database_ node = Some database
       /\ potential_models (target request) = model :: rest
       /\ (getClusterRepGrasps database (model_id model)
             (handDatabaseName ps (arm_name request)) = None
           \/ frame_id (model_pose model)
              <> reference_frame_id (target request)).
Proof.
  unfold graspPlanningCB. intros Hcb Hcode.
  destruct (database_ node) as [database|]; [|left; reflexivity].
  destruct (potential_models (target request)) as [|model rest];
    [right; left; reflexivity|].
  right. right. exists database, model, rest.
  split; [reflexivity|]. split; [reflexivity|].
  destruct (getClusterRepGrasps database _ _) as [fetched|];
    [|left; reflexivity].
  right. intros Hf. apply String.eqb_eq in Hf.
  apply (convert_loop_same_frame_code _ _ _ _ Hf) in Hcb.
  congruence.
Qed.

End CallbackCauses.

(** ** The other services *)

Section ServicesFacts.

Context {tf : TF} {catalog : Catalog}.

(** The loop of [getModelsCB] from any index: every read is inside
    the vector. *)
Lemma getModelsCB_loop_ids (models : list DatabaseScaledModel) :
  forall (rest done_ : list DatabaseScaledModel) (model_ids : list Z),
    models = done_ ++ rest ->
    getModelsCB_loop models (length rest) (length done_) model_ids
    = Return (model_ids ++ map id_ rest).
Proof.
  intros rest. induction rest as [|m rest IH]; intros done_ model_ids Hm;
    cbn [getModelsCB_loop length map].
  - rewrite app_nil_r. reflexivity.
  - unfold Vector.index.
    assert (Hnth : nth_error models (length done_) = Some m).
    { subst models. rewrite nth_error_app2 by lia.
      rewrite Nat.sub_diag. reflexivity. }
    rewrite Hnth. cbn [bind].
    replace (S (length done_)) with (length (done_ ++ [m]))
      by (rewrite length_app; cbn; lia).
    rewrite IH by (rewrite <- app_assoc; exact Hm).
    rewrite <- app_assoc. reflexivity.
Qed.

(** X15. [getModelsCB] always returns a response: without a database
    the code for that, when the query fails the code of a query error,
    both with no identifier; otherwise SUCCESS with the identifiers of
    the models of the set, one for each model and in the order the
    database gave them. *)
Theorem getModelsCB_lists_identifiers
    (database_ : option DB) (request : GetModelList_Request) :
  getModelsCB database_ request =
    Return
      match database_ with
      | None =>
          {| model_ids := [];
             list_code := DatabaseReturnCode.DATABASE_NOT_CONNECTED |}
      | Some db =>
          match getScaledModelsBySet db (model_set request) with
          | None =>
              {| model_ids := [];
                 list_code := DatabaseReturnCode.DATABASE_QUERY_ERROR |}
          | Some models =>
              {| model_ids := map id_ models;
                 list_code := DatabaseReturnCode.SUCCESS |}
          end
      end.
Proof.
  unfold getModelsCB. destruct database_ as [db|]; [|reflexivity].
  destruct (getScaledModelsBySet db (model_set request)) as [models|];
    [|reflexivity].
  pose proof (getModelsCB_loop_ids models models [] [] eq_refl) as H.
  cbn [length app] in H. rewrite H. reflexivity.
Qed.


End ServicesFacts.

(** X17. The where clause of [getDescriptionCB] is
    [scaled_model_id=] followed by the decimal numeral of the model
    identifier, which reads back as the identifier: two identifiers
    have the same clause only when they are the same. *)
Theorem where_clause_names_the_model (a b : Z) :
  (exists digits,
     where_clause a = ("scaled_model_id=" ++ digits)%string
     /\ option_map Z.of_int (NilEmpty.int_of_string digits) = Some a)
  /\ (where_clause a = where_clause b <-> a = b).
Proof.
  split.
  - exists (NilEmpty.string_of_int (Z.to_int a)). split; [reflexivity|].
    rewrite NilEmpty.isi. cbn [option_map]. rewrite DecimalZ.of_to.
    reflexivity.
  - split; [|intros ->; reflexivity].
    unfold where_clause. intros H.
    cbn [String.append] in H.
    repeat match type of H with
           | String _ _ = String _ _ => injection H as H
           end.
    apply (f_equal NilEmpty.int_of_string) in H.
    rewrite !NilEmpty.isi in H. injection H as H.
    apply DecimalZ.to_int_inj. exact H.
Qed.

Section ServicesFactsMore.

Context {tf : TF} {catalog : Catalog}.

(** X18. [getScansCB] and [saveScanCB] do not look at what the
    database returns: on a connected database their code is SUCCESS
    also when the query or the insertion fails, and never that of a
    query error. The scans of the response are those the query left,
    and the scan handed to the insertion carries the frame, the pose,
    the topic, the model identifier, the bag file and the source of
    the request. *)
Theorem scans_services_report_success
    (db : DB) (database_ : option DB)
    (request : GetModelScans_Request) (save : SaveScan_Request) :
  getScansCB (Some db) request =
    {| matching_scans :=
         snd (getModelScans db (scans_model_id request)
                (scan_source request) []);
       scans_code := DatabaseReturnCode.SUCCESS |}
  /\ saveScanCB (Some db) save =
     (DatabaseReturnCode.SUCCESS,
      Some (snd (insertIntoDatabase db
                   {| frame_id_ := frame_id (ground_truth_pose save);
                      cloud_topic_ := cloud_topic save;
                      object_pose_ := pose (ground_truth_pose save);
                      scaled_model_id_ := scaled_model_id save;
                      scan_bagfile_location_ := bagfile_location save;
                      scan_source_ := save_scan_source save |})))
  /\ scans_code (getScansCB database_ request)
     <> DatabaseReturnCode.DATABASE_QUERY_ERROR
  /\ fst (saveScanCB database_ save)
     <> DatabaseReturnCode.DATABASE_QUERY_ERROR.
Proof.
  split.
  { unfold getScansCB. destruct (getModelScans db _ _ _); reflexivity. }
  split.
  { unfold saveScanCB, scan_of_request.
    destruct (insertIntoDatabase db _); reflexivity. }
  split.
  - unfold getScansCB. destruct database_ as [db'|]; [|discriminate].
    destruct (getModelScans db' _ _ _); discriminate.
  - unfold saveScanCB. destruct database_ as [db'|]; [|discriminate].
    destruct (insertIntoDatabase db' _); discriminate.
Qed.

End ServicesFactsMore.

(** ** The turns of the loop, one by one *)

Section Turns.

Context {tf : TF}.

(** The loop after turns that went through. *)
Lemma convert_loop_after (ps : ParamServer) (request : Request)
    (model : DatabaseModelPose) (hand_id : string)
    (rest : list DatabaseGrasp) :
  forall (before : list DatabaseGrasp) (pushed : list Grasp)
         (listener_ listener1 : TransformListener) (reached : Response),
    convert_loop ps request model hand_id before pushed listener_
      = (Return reached, listener1) ->
    error_code reached = SUCCESS ->
    convert_loop ps request model hand_id (before ++ rest) pushed listener_
    = convert_loop ps request model hand_id rest (grasps reached) listener1.
Proof.
  intros before. induction before as [|it before IH];
    intros pushed l l1 reached; cbn [app convert_loop].
  - intros H _. injection H as <- <-. reflexivity.
  - destruct (convert_grasp ps request model hand_id it l)
      as [[[|g|]|e] l2]; try apply IH; try discriminate.
    intros H Hs. injection H as <- _. discriminate.
Qed.

(** Turns on records the hand gives no postures push nothing. *)
Lemma convert_loop_passed_over (ps : ParamServer) (request : Request)
    (model : DatabaseModelPose) (hand_id : string)
    (joint_names : list string) :
  handJointNames ps (arm_name request) = Return joint_names ->
  forall (before : list DatabaseGrasp) (pushed : list Grasp)
         (listener_ listener1 : TransformListener) (reached : Response),
    existsb (adapts hand_id joint_names) before = false ->
    convert_loop ps request model hand_id before pushed listener_
      = (Return reached, listener1) ->
    grasps reached = pushed.
Proof.
  intros Hn before. induction before as [|it before IH];
    intros pushed l l1 reached He; cbn [convert_loop].
  - intros H. injection H as <- _. reflexivity.
  - cbn [existsb] in He. apply orb_false_iff in He. destruct He as [He Hes].
    unfold convert_grasp. destruct (negb _); [discriminate|].
    rewrite Hn. unfold adapts in He.
    destruct (adapt_postures hand_id joint_names it) as [[[pre fin]|]|e];
      try discriminate.
    apply IH. exact Hes.
Qed.

(** C1, as the code has it. The frame of the detection is not the
    reference frame, and a lookup of the transform fails: the turns on
    the records before went through, the record passes the assertion,
    the joint names are read, the hand gives the record its postures,
    and the listener does not answer. Then the request ends there with
    OTHER_ERROR, whichever lookup of the request it is; and when it is
    the first, no record before having been given postures, the
    response holds no grasp. *)
Theorem transform_failure_fails_request
    (node : ObjectsDatabaseNode) (database : ObjectsDatabase)
    (ps : ParamServer) (request : Request)
    (model : DatabaseModelPose) (rest : list DatabaseModelPose)
    (fetched before after : list DatabaseGrasp) (it : DatabaseGrasp)
    (joint_names : list string) (reached : Response)
    (listener_ listener1 listener2 : TransformListener) :
  database_ node = Some database ->
  potential_models (target request) = model :: rest ->
  getClusterRepGrasps database (model_id model)
    (handDatabaseName ps (arm_name request)) = Some fetched ->
  filter below_threshold fetched = before ++ it :: after ->
  convert_loop ps request model (handDatabaseName ps (arm_name request))
    before [] listener_ = (Return reached, listener1) ->
  error_code reached = SUCCESS ->
  assert_ok it = true ->
  handJointNames ps (arm_name request) = Return joint_names ->
  adapts (handDatabaseName ps (arm_name request)) joint_names it = true ->
  frame_id (model_pose model) <> reference_frame_id (target request) ->
  lookupTransform listener1 (reference_frame_id (target request))
    (frame_id (model_pose model)) (ros_Time 0) = (None, listener2) ->
  exists response,
    graspPlanningCB node ps request listener_ = (Return response, listener2)
    /\ error_code response = OTHER_ERROR
    /\ (existsb (adapts (handDatabaseName ps (arm_name request)) joint_names)
          before = false ->
        grasps response = []).
Proof.
  intros Hd Hm Hg Hsplit Hbefore Hs Ha Hn Had Hf Hl.
  exists {| grasps := grasps reached; error_code := OTHER_ERROR |}.
  split; [|split; [reflexivity|]].
  - unfold graspPlanningCB.
    rewrite Hd, Hm, Hg, pruneGraspList_filter, Hsplit.
    rewrite (convert_loop_after _ _ _ _ _ _ _ _ _ _ Hbefore Hs).
    cbn [convert_loop]. unfold convert_grasp.
    unfold assert_ok in Ha. rewrite Ha, Hn. cbn [negb].
    unfold adapts in Had.
    destruct (adapt_postures _ joint_names it) as [[[pre fin]|]|e];
      try discriminate.
    apply String.eqb_neq in Hf.
    rewrite compose_grasp_pose_other_frame by exact Hf.
    rewrite Hl. reflexivity.
  - intros He. cbn [grasps].
    eapply convert_loop_passed_over; eassumption.
Qed.

(** C4, as the code has it. With the joint names read, a turn of the
    loop under the underactuated hand on a record with seven joint
    names and eight entries in each raw posture makes a grasp whose
    two postures have seven positions: position 0 is raw entry 0
    clamped into [0, 1.5707], and positions 1 to 6 are the raw entries
    6, 7, 1, 2, 3 and 4, each clamped into [-1.5707, 1.5707]; the
    grasp is pushed when its pose is there, and the request fails
    when the lookup for it does. When the names are not seven or the
    final posture has not eight entries, a record whose two raw
    postures are equally long is passed over, and the loop goes on
    with the next. A record whose two raw postures differ in length is
    not passed over: the assertion ends the request, under any
    hand. *)
Theorem underactuated_turn
    (ps : ParamServer) (request : Request) (model : DatabaseModelPose)
    (joint_names : list string) (it : DatabaseGrasp)
    (its : list DatabaseGrasp) (pushed : list Grasp)
    (listener_ : TransformListener) :
  handJointNames ps (arm_name request) = Return joint_names ->
  (length joint_names = 7 ->
   length (pre_grasp_posture_ it) = 8 ->
   length (final_grasp_posture_ it) = 8 ->
   exists pre fin : list double,
     length pre = 7 /\ length fin = 7
     /\ (forall k i lo, In (k, i, lo) schunk_layout ->
           clamp_of lo d_1_5707
             (nth i (pre_grasp_posture_ it) d_0_0) (nth k pre d_0_0)
           /\ clamp_of lo d_1_5707
                (nth i (final_grasp_posture_ it) d_0_0) (nth k fin d_0_0))
     /\ convert_grasp ps request model "Schunk" it listener_ =
        match compose_grasp_pose (model_pose model)
                (reference_frame_id (target request))
                (final_grasp_pose_ it) listener_ with
        | (Some p, listener') =>
            (Return
               (Push {| pre_grasp_posture :=
                          {| name := joint_names; position := pre;
                             effort := repeat d_100 (length joint_names) |};
                        grasp_posture :=
                          {| name := joint_names; position := fin;
                             effort := repeat d_50 (length joint_names) |};
                        grasp_pose := p;
                        success_probability := scaled_quality_ it;
                        desired_approach_distance := d_0_15;
                        min_approach_distance := d_0_07 |}),
             listener')
        | (None, listener') => (Return Fail, listener')
        end)
  /\ (length (pre_grasp_posture_ it) = length (final_grasp_posture_ it) ->
      length joint_names <> 7 \/ length (final_grasp_posture_ it) <> 8 ->
      convert_loop ps request model "Schunk" (it :: its) pushed listener_ =
      convert_loop ps request model "Schunk" its pushed listener_)
  /\ (length (pre_grasp_posture_ it) <> length (final_grasp_posture_ it) ->
      forall hand_id,
        convert_loop ps request model hand_id (it :: its) pushed listener_ =
        (Raise AssertionFailure, listener_)).
Proof.
  intros Hnames. split; [|split].
  - intros Hn Hp Hf.
    pose (layout := fun v : list double =>
      [clamp_first (nth 0 v d_0_0); clamp_other (nth 6 v d_0_0);
       clamp_other (nth 7 v d_0_0); clamp_other (nth 1 v d_0_0);
       clamp_other (nth 2 v d_0_0); clamp_other (nth 3 v d_0_0);
       clamp_other (nth 4 v d_0_0)]).
    assert (Hadapt :
      adapt_postures "Schunk" joint_names it =
      Return (Some
        ({| name := joint_names;
            position := layout (pre_grasp_posture_ it); effort := [] |},
         {| name := joint_names;
            position := layout (final_grasp_posture_ it); effort := [] |}))).
    { unfold adapt_postures.
      rewrite Hn, Hf. cbn [String.eqb Ascii.eqb Bool.eqb Nat.eqb negb].
      rewrite !schunk_positions_long by lia. reflexivity. }
    exists (layout (pre_grasp_posture_ it)),
           (layout (final_grasp_posture_ it)).
    split; [reflexivity|]. split; [reflexivity|].
    split.
    + intros k i lo Hin. unfold schunk_layout in Hin. cbn [In] in Hin.
      unfold layout.
      repeat (destruct Hin as [Hin|Hin];
              [injection Hin as <- <- <-; cbn [nth]; split;
               first [apply DoubleFacts.clamp_0 | apply DoubleFacts.clamp_m]|]).
      destruct Hin.
    + unfold convert_grasp. rewrite Hp, Hf, Hnames, Hadapt.
      cbn [Nat.eqb negb name position effort]. rewrite !resize_nil.
      destruct (compose_grasp_pose _ _ _ _) as [[p|] l']; reflexivity.
  - intros Hlen Hskip.
    apply convert_loop_continue with (joint_names := joint_names);
      try assumption.
    + unfold assert_ok. rewrite Hlen. apply Nat.eqb_refl.
    + unfold adapt_postures.
      cbn [String.eqb Ascii.eqb Bool.eqb].
      destruct (length joint_names =? 7) eqn:Hn; cbn [negb]; [|reflexivity].
      destruct (length (final_grasp_posture_ it) =? 8) eqn:Hf; cbn [negb];
        [|reflexivity].
      apply Nat.eqb_eq in Hn, Hf. destruct Hskip; contradiction.
  - intros Hlen hand_id. cbn [convert_loop]. unfold convert_grasp.
    assert (Ha : (length (final_grasp_posture_ it)
                  =? length (pre_grasp_posture_ it)) = false)
      by (apply Nat.eqb_neq; congruence).
    rewrite Ha. reflexivity.
Qed.

(** C7, as the code has it. A request with no candidate model ends at
    once with OTHER_ERROR and no grasp, whatever its other fields, the
    node, the parameters and the listener are, and the listener is
    left alone. The code is not one of its own for such a request:
    the response is the one a node without a database gives to every
    request, and the one a request with a candidate gets when the
    database refuses the query for its grasps. *)
Theorem empty_candidates_fail_request
    (node : ObjectsDatabaseNode) (ps : ParamServer) (request : Request)
    (listener_ : TransformListener) :
  potential_models (target request) = [] ->
  graspPlanningCB node ps request listener_ =
    (Return {| grasps := []; error_code := OTHER_ERROR |}, listener_)
  /\ (forall node' request',
        database_ node' = None ->
        graspPlanningCB node' ps request' listener_ =
          (Return {| grasps := []; error_code := OTHER_ERROR |}, listener_))
  /\ (forall node' database request' model rest,
        database_ node' = Some database ->
        potential_models (target request') = model :: rest ->
        getClusterRepGrasps database (model_id model)
          (handDatabaseName ps (arm_name request')) = None ->
        graspPlanningCB node' ps request' listener_ =
          (Return {| grasps := []; error_code := OTHER_ERROR |}, listener_)).
Proof.
  intros H. split; [|split].
  - unfold graspPlanningCB. rewrite H.
    destruct (database_ node); reflexivity.
  - intros node' request' Hd. unfold graspPlanningCB. rewrite Hd.
    reflexivity.
  - intros node' database request' model rest Hd Hm Hg.
    unfold graspPlanningCB. rewrite Hd, Hm, Hg. reflexivity.
Qed.

End Turns.

(** ** The theorems at work on sample requests *)

Module Runs.
Import Demo.

(** The scenario of the specification for the underactuated hand: the
    raw posture [0, 0, 0, 0, 0, 0, 1.2, -2] gives the positions
    [0, 1.2, -1.5707, 0, 0, 0, 0]. *)
Lemma scenario_underactuated :
  adapt_postures "Schunk" seven_joints schunk_grasp =
    Return (Some ({| name := seven_joints; position := scenario_positions;
                     effort := [] |},
                  {| name := seven_joints; position := scenario_positions;
                     effort := [] |})).
Proof. vm_compute. reflexivity. Qed.

(** The scenario of the parallel jaw: one raw value, four joints. *)
Lemma scenario_parallel_jaw :
  adapt_postures "WILLOW_GRIPPER_2010" ["j1"; "j2"; "j3"; "j4"] first_grasp =
    Return (Some ({| name := ["j1"; "j2"; "j3"; "j4"];
                     position := [d_0_8; d_0_8; d_0_8; d_0_8];
                     effort := [] |},
                  {| name := ["j1"; "j2"; "j3"; "j4"];
                     position := [d_0_8; d_0_8; d_0_8; d_0_8];
                     effort := [] |})).
Proof. vm_compute. reflexivity. Qed.

(** The filter at the threshold: of the qualities -50, -40, 100 and
    NaN, the first and the last are kept. *)
Lemma prune_at_threshold :
  pruneGraspList
    [grasp_of d_m50 [] [] "a"; grasp_of d_m40 [] [] "b";
     grasp_of d_100 [] [] "c"; grasp_of S754_nan [] [] "d"] d_0_0 d_0_0 =
  ([grasp_of d_m50 [] [] "a"; grasp_of S754_nan [] [] "d"], 2%Z).
Proof. vm_compute. reflexivity. Qed.

(** A NaN among the raw values comes out as the upper bound. *)
Lemma clamp_of_nan :
  clamp_first S754_nan = d_1_5707 /\ clamp_other S754_nan = d_1_5707.
Proof. split; reflexivity. Qed.


Lemma grasp_postures_match_joint_names_witness :
  exists joint_names,
    handJointNames schunk_params "right_arm" = Return joint_names
    /\ joint_names = seven_joints
    /\ length scenario_positions = length scenario_positions
    /\ length scenario_positions = length joint_names.
Proof.
  destruct (@grasp_postures_match_joint_names symbolic
              (node_of [schunk_grasp]) schunk_params base_request [] []
              {| grasps := [resolved seven_joints scenario_positions
                              scenario_positions ["detection"; "grasp"]];
                 error_code := SUCCESS |}
              (resolved seven_joints scenario_positions scenario_positions
                 ["detection"; "grasp"]))
    as (joint_names & Hn & Hpre & _ & Hl1 & Hl2).
  - vm_compute. reflexivity.
  - left. reflexivity.
  - exists joint_names. repeat split; auto.
Defined.

Lemma grasp_approach_distances_fixed_witness :
  desired_approach_distance
    (resolved ["finger"] [d_0_8] [d_0_8]
       ["base_link<-camera"; "detection"; "grasp2"]) = d_0_15
  /\ min_approach_distance
       (resolved ["finger"] [d_0_8] [d_0_8]
          ["base_link<-camera"; "detection"; "grasp2"]) = d_0_07.
Proof.
  apply (@grasp_approach_distances_fixed symbolic
           (node_of [first_grasp; second_grasp]) one_joint_params
           camera_request
           [Some ["base_link<-camera"]; Some ["base_link<-camera"]] []
           {| grasps := [resolved ["finger"] [d_0_8] [d_0_8]
                           ["base_link<-camera"; "detection"; "grasp1"];
                         resolved ["finger"] [d_0_8] [d_0_8]
                           ["base_link<-camera"; "detection"; "grasp2"]];
              error_code := SUCCESS |}).
  - vm_compute. reflexivity.
  - right. left. reflexivity.
Defined.

Lemma grasp_pose_composition_witness :
  (["detection"; "grasp1"] = @multiplyPoses symbolic ["detection"] ["grasp1"]
   /\ snd (graspPlanningCB (node_of [first_grasp]) one_joint_params
             base_request [None]) = [None])
  /\ exists ref_trans,
       @lookupTransform symbolic [Some ["base_link<-camera"]] "base_link"
         "camera" (ros_Time 0) = (Some ref_trans, [])
       /\ ["base_link<-camera"; "detection"; "grasp1"] =
          @multiplyPoses symbolic (@poseTFToMsg symbolic ref_trans)
            (@multiplyPoses symbolic ["detection"] ["grasp1"]).
Proof.
  split.
  - destruct (@grasp_pose_composition symbolic (node_of [first_grasp])
                one_joint_params base_request base_model [] "BARRETT"
                first_grasp [None] [None]
                (resolved ["finger"] [d_0_8] [d_0_8] ["detection"; "grasp1"])
                eq_refl eq_refl) as [Hsame _].
    destruct (Hsame eq_refl) as (Hp & _ & Hl). split; assumption.
  - destruct (@grasp_pose_composition symbolic (node_of [first_grasp])
                one_joint_params camera_request camera_model [] "BARRETT"
                first_grasp [Some ["base_link<-camera"]] []
                (resolved ["finger"] [d_0_8] [d_0_8]
                   ["base_link<-camera"; "detection"; "grasp1"])
                eq_refl eq_refl) as [_ Hother].
    apply Hother. vm_compute. discriminate.
Defined.

(** C1 as stated fails: the listener answers the first lookup and not
    the second, in a request whose detection is seen from the camera;
    the response carries the error code and the grasp of the first
    record. *)
Lemma transform_failure_after_a_grasp :
  frame_id (model_pose camera_model)
    <> reference_frame_id (target camera_request)
  /\ @lookupTransform symbolic [None] "base_link" "camera" (ros_Time 0)
     = (None, [])
  /\ graspPlanningCB (node_of [first_grasp; second_grasp]) one_joint_params
       camera_request [Some ["base_link<-camera"]; None] =
     (Return {| grasps := [resolved ["finger"] [d_0_8] [d_0_8]
                             ["base_link<-camera"; "detection"; "grasp1"]];
                error_code := OTHER_ERROR |}, [])
  /\ [resolved ["finger"] [d_0_8] [d_0_8]
        ["base_link<-camera"; "detection"; "grasp1"]] <> [].
Proof.
  split; [vm_compute; discriminate|].
  split; [reflexivity|].
  split; [vm_compute; reflexivity | discriminate].
Qed.



Lemma underactuated_turn_witness :
  (exists pre fin : list double,
     length pre = 7 /\ length fin = 7
     /\ (forall k i lo, In (k, i, lo) schunk_layout ->
           clamp_of lo d_1_5707
             (nth i (pre_grasp_posture_ schunk_grasp) d_0_0) (nth k pre d_0_0)
           /\ clamp_of lo d_1_5707
                (nth i (final_grasp_posture_ schunk_grasp) d_0_0)
                (nth k fin d_0_0))
     /\ convert_grasp schunk_params base_request base_model "Schunk"
          schunk_grasp [] =
        match compose_grasp_pose (model_pose base_model)
                (reference_frame_id (target base_request))
                (final_grasp_pose_ schunk_grasp) [] with
        | (Some p, listener') =>
            (Return
               (Push (@Build_Grasp symbolic
                        {| name := seven_joints; position := pre;
                           effort := repeat d_100 (length seven_joints) |}
                        {| name := seven_joints; position := fin;
                           effort := repeat d_50 (length seven_joints) |}
                        p (scaled_quality_ schunk_grasp) d_0_15 d_0_07)),
             listener')
        | (None, listener') => (Return Fail, listener')
        end)
  /\ convert_loop schunk_params base_request base_model "Schunk"
       [seven_entry_grasp; schunk_grasp] [] [] =
     convert_loop schunk_params base_request base_model "Schunk"
       [schunk_grasp] [] []
  /\ convert_loop schunk_params base_request base_model "Schunk"
       [short_pre_grasp; schunk_grasp] [] [] = (Raise AssertionFailure, []).
Proof.
  split; [|split].
  - apply (@underactuated_turn symbolic schunk_params base_request
             base_model seven_joints schunk_grasp [] [] []);
      reflexivity.
  - apply (@underactuated_turn symbolic schunk_params base_request
             base_model seven_joints seven_entry_grasp [schunk_grasp] [] []);
      [reflexivity | reflexivity | right; vm_compute; discriminate].
  - apply (@underactuated_turn symbolic schunk_params base_request
             base_model seven_joints short_pre_grasp [schunk_grasp] [] []);
      [reflexivity | vm_compute; discriminate].
Defined.

(** C4 as stated fails: a record under the underactuated hand with
    eight final entries and seven pre-grasp entries misses a length
    precondition and is not passed over; the assertion ends the
    request, and the grasp of the record after it, which the request
    gives when the record is left out, is lost. *)
Lemma uneven_record_ends_request :
  length (final_grasp_posture_ short_pre_grasp) = 8
  /\ length (pre_grasp_posture_ short_pre_grasp) <> 8
  /\ graspPlanningCB (node_of [short_pre_grasp; schunk_grasp]) schunk_params
       base_request [] = (Raise AssertionFailure, [])
  /\ graspPlanningCB (node_of [schunk_grasp]) schunk_params base_request [] =
     (Return {| grasps := [resolved seven_joints scenario_positions
                             scenario_positions ["detection"; "grasp"]];
                error_code := SUCCESS |}, []).
Proof.
  split; [reflexivity|]. split; [vm_compute; discriminate|].
  split; vm_compute; reflexivity.
Qed.

Lemma transform_failure_fails_request_witness :
  (exists response,
     graspPlanningCB (node_of [first_grasp; uneven_grasp]) one_joint_params
       camera_request [None] = (Return response, [])
     /\ error_code response = OTHER_ERROR
     /\ grasps response = [])
  /\ (exists response,
        graspPlanningCB (node_of [first_grasp; second_grasp])
          one_joint_params camera_request [Some ["base_link<-camera"]; None]
        = (Return response, [])
        /\ error_code response = OTHER_ERROR).
Proof.
  split.
  - destruct (@transform_failure_fails_request symbolic
                (node_of [first_grasp; uneven_grasp])
                (database_of [first_grasp; uneven_grasp])
                one_joint_params camera_request camera_model []
                [first_grasp; uneven_grasp] [] [uneven_grasp] first_grasp
                ["finger"] {| grasps := []; error_code := SUCCESS |}
                [None] [None] [])
      as (response & H1 & H2 & H3); try reflexivity.
    { vm_compute. discriminate. }
    exists response. split; [exact H1|]. split; [exact H2|].
    apply H3. reflexivity.
  - destruct (@transform_failure_fails_request symbolic
                (node_of [first_grasp; second_grasp])
                (database_of [first_grasp; second_grasp])
                one_joint_params camera_request camera_model []
                [first_grasp; second_grasp] [first_grasp] [] second_grasp
                ["finger"]
                {| grasps := [resolved ["finger"] [d_0_8] [d_0_8]
                                ["base_link<-camera"; "detection"; "grasp1"]];
                   error_code := SUCCESS |}
                [Some ["base_link<-camera"]; None] [None] [])
      as (response & H1 & H2 & _); try reflexivity.
    { vm_compute. discriminate. }
    exists response. split; [exact H1 | exact H2].
Defined.

Lemma empty_candidates_fail_request_witness :
  graspPlanningCB (node_of [first_grasp]) one_joint_params
    (request_of "right_arm" [] "base_link") [Some ["base_link<-camera"]] =
  (Return {| grasps := []; error_code := OTHER_ERROR |},
   [Some ["base_link<-camera"]])
  /\ graspPlanningCB refusing_node one_joint_params base_request
       [Some ["base_link<-camera"]] =
     (Return {| grasps := []; error_code := OTHER_ERROR |},
      [Some ["base_link<-camera"]]).
Proof.
  destruct (@empty_candidates_fail_request symbolic (node_of [first_grasp])
              one_joint_params (request_of "right_arm" [] "base_link")
              [Some ["base_link<-camera"]] eq_refl) as (H1 & _ & H3).
  split; [exact H1|].
  apply (H3 refusing_node
            {| getClusterRepGrasps := fun _ _ => None |}
            base_request base_model []); reflexivity.
Defined.

(** C7 as stated fails: the response to a request without candidates
    carries no kind of its own. However the outcome of a request is
    read off its response, it cannot be an invalid request for the
    request without candidates and an unavailable catalog for the
    request whose query the database refuses: the two responses are
    the same. *)
Lemma no_invalid_request_kind :
  ~ exists kind_of : Outcome (@Response symbolic) -> Status,
      kind_of (fst (graspPlanningCB (node_of [first_grasp]) one_joint_params
                      (request_of "right_arm" [] "base_link") []))
      = InvalidRequest
      /\ kind_of (fst (graspPlanningCB refusing_node one_joint_params
                         base_request []))
         = CatalogUnavailable.
Proof.
  intros (kind_of & H1 & H2).
  change (fst (graspPlanningCB refusing_node one_joint_params
                 base_request []))
    with (fst (graspPlanningCB (node_of [first_grasp]) one_joint_params
                 (request_of "right_arm" [] "base_link") [])) in H2.
  rewrite H1 in H2. discriminate.
Qed.

End Runs.

(** ** More sample requests *)

Module MoreRuns.
Import Demo.

Lemma parallel_jaw_postures_witness :
  exists a b : double,
    pre_grasp_posture_ first_grasp = [a]
    /\ final_grasp_posture_ first_grasp = [b]
    /\ adapt_postures "WILLOW_GRIPPER_2010" ["j1"; "j2"; "j3"; "j4"]
         first_grasp =
       Return (Some ({| name := ["j1"; "j2"; "j3"; "j4"];
                        position := [a; a; a; a]; effort := [] |},
                     {| name := ["j1"; "j2"; "j3"; "j4"];
                        position := [b; b; b; b]; effort := [] |})).
Proof.
  destruct (@parallel_jaw_postures symbolic ["j1"; "j2"; "j3"; "j4"]
              first_grasp eq_refl) as [H _].
  exact (H eq_refl eq_refl).
Defined.

Lemma direct_mapped_postures_witness :
  adapt_postures "BARRETT" ["finger"] first_grasp =
    Return (Some ({| name := ["finger"]; position := [d_0_8];
                     effort := [] |},
                  {| name := ["finger"]; position := [d_0_8];
                     effort := [] |})).
Proof.
  destruct (@direct_mapped_postures symbolic "BARRETT" ["finger"]
              first_grasp) as [H _]; [discriminate | discriminate |].
  exact (H eq_refl).
Defined.

Lemma underactuated_positions_within_limits_witness :
  (exists p0 rest,
     scenario_positions = p0 :: rest /\ length rest = 6
     /\ within d_0_0 d_1_5707 p0 = true
     /\ forallb (within d_m1_5707 d_1_5707) rest = true)
  /\ (exists p0 rest,
        scenario_positions = p0 :: rest /\ length rest = 6
        /\ within d_0_0 d_1_5707 p0 = true
        /\ forallb (within d_m1_5707 d_1_5707) rest = true).
Proof.
  apply (@underactuated_positions_within_limits symbolic
           (node_of [schunk_grasp]) schunk_params base_request [] []
           {| grasps := [resolved seven_joints scenario_positions
                           scenario_positions ["detection"; "grasp"]];
              error_code := SUCCESS |}
           (resolved seven_joints scenario_positions scenario_positions
              ["detection"; "grasp"])).
  - vm_compute. reflexivity.
  - vm_compute. reflexivity.
  - left. reflexivity.
Defined.

Lemma grasp_efforts_fixed_witness :
  exists joint_names,
    handJointNames schunk_params "right_arm" = Return joint_names
    /\ repeat d_100 (length seven_joints) = repeat d_100 (length joint_names)
    /\ repeat d_50 (length seven_joints) = repeat d_50 (length joint_names).
Proof.
  apply (@grasp_efforts_fixed symbolic
           (node_of [schunk_grasp]) schunk_params base_request [] []
           {| grasps := [resolved seven_joints scenario_positions
                           scenario_positions ["detection"; "grasp"]];
              error_code := SUCCESS |}
           (resolved seven_joints scenario_positions scenario_positions
              ["detection"; "grasp"])).
  - vm_compute. reflexivity.
  - left. reflexivity.
Defined.

Lemma grasps_follow_surviving_records_witness :
  exists its,
    Subsequence its (filter below_threshold [first_grasp; second_grasp])
    /\ Forall2 (pushed_by one_joint_params camera_request camera_model
                  (handDatabaseName one_joint_params "right_arm"))
         its
         [resolved ["finger"] [d_0_8] [d_0_8]
            ["base_link<-camera"; "detection"; "grasp1"]]
    /\ [d_0_8] = map scaled_quality_ its
    /\ 1 <= 2.
Proof.
  apply (@grasps_follow_surviving_records symbolic
           (node_of [first_grasp; second_grasp])
           (database_of [first_grasp; second_grasp])
           one_joint_params camera_request camera_model []
           [first_grasp; second_grasp]
           [Some ["base_link<-camera"]; None] []
           {| grasps := [resolved ["finger"] [d_0_8] [d_0_8]
                           ["base_link<-camera"; "detection"; "grasp1"]];
              error_code := OTHER_ERROR |});
    reflexivity.
Defined.

Lemma first_candidate_only_witness :
  graspPlanningCB (node_of [first_grasp]) one_joint_params
    (request_of "right_arm" [(18744%Z, "base_link")] "base_link") [] =
  graspPlanningCB (node_of [first_grasp]) one_joint_params
    (request_of "right_arm" [(18744%Z, "base_link"); (5%Z, "camera")]
       "base_link") [].
Proof.
  apply (@first_candidate_only symbolic (node_of [first_grasp])
           one_joint_params
           (request_of "right_arm" [(18744%Z, "base_link")] "base_link")
           (request_of "right_arm" [(18744%Z, "base_link"); (5%Z, "camera")]
              "base_link")
           base_model [] [@Build_DatabaseModelPose symbolic 5
                            (@Build_PoseStamped symbolic "camera"
                               ["detection"])]);
    reflexivity.
Defined.

Lemma same_frame_request_succeeds_witness :
  graspPlanningCB (node_of [seven_entry_grasp; schunk_grasp]) schunk_params
    base_request [None] =
  (Return {| grasps := [resolved seven_joints scenario_positions
                          scenario_positions ["detection"; "grasp"]];
             error_code := SUCCESS |}, [None]).
Proof.
  apply (@same_frame_request_succeeds symbolic
           (node_of [seven_entry_grasp; schunk_grasp])
           (database_of [seven_entry_grasp; schunk_grasp])
           schunk_params base_request base_model []
           [seven_entry_grasp; schunk_grasp] seven_joints [None]);
    try reflexivity; vm_compute; reflexivity.
Defined.

Lemma other_frame_request_answers_witness :
  exists response listener',
    graspPlanningCB (node_of [first_grasp; second_grasp]) one_joint_params
      camera_request [Some ["base_link<-camera"]; None]
    = (Return response, listener')
    /\ error_code response = OTHER_ERROR
    /\ length (grasps response) = 1.
Proof.
  destruct (@other_frame_request_answers symbolic
              (node_of [first_grasp; second_grasp])
              (database_of [first_grasp; second_grasp])
              one_joint_params camera_request camera_model []
              [first_grasp; second_grasp] ["finger"]
              [Some ["base_link<-camera"]; None])
    as (response & listener' & H1 & H2 & H3 & _);
    try (vm_compute; reflexivity).
  { vm_compute. discriminate. }
  exists response, listener'.
  split; [exact H1|]. split; [exact H2 | exact H3].
Defined.

Lemma only_assertion_and_xmlrpc_escape_witness :
  XmlRpcException = AssertionFailure \/ XmlRpcException = XmlRpcException.
Proof.
  apply (@only_assertion_and_xmlrpc_escape symbolic (node_of [first_grasp])
           no_params base_request [] []).
  vm_compute. reflexivity.
Defined.

Lemma failure_causes_witness :
  database_ (node_of [first_grasp; second_grasp]) = None
  \/ potential_models (target camera_request) = []
  \/ exists database model rest,
       database_ (node_of [first_grasp; second_grasp]) = Some database
       /\ potential_models (target camera_request) = model :: rest
       /\ (getClusterRepGrasps database (model_id model)
             (handDatabaseName one_joint_params (arm_name camera_request))
           = None
           \/ frame_id (model_pose model)
              <> reference_frame_id (target camera_request)).
Proof.
  apply (@failure_causes symbolic (node_of [first_grasp; second_grasp])
           one_joint_params camera_request
           [None; Some ["base_link<-camera"]] [Some ["base_link<-camera"]]
           {| grasps := []; error_code := OTHER_ERROR |});
    reflexivity.
Defined.

(** The services on the sample catalog: the models of a maker, a
    description, and a scan saved though the insertion reports a
    failure. *)
Lemma sample_services :
  @getModelsCB symbolic Samples.catalog (Some []) {| model_set := "acme" |}
    = Return {| model_ids := [18744%Z; 18699%Z];
                list_code := DatabaseReturnCode.SUCCESS |}
  /\ @getDescriptionCB symbolic Samples.catalog (Some []) 18699
     = Return {| tags := ["bowl"]; description_name := "salad bowl";
                 maker := "acme";
                 description_code := DatabaseReturnCode.SUCCESS |}
  /\ @getDescriptionCB symbolic Samples.catalog (Some []) 7
     = Return {| tags := []; description_name := ""; maker := "";
                 description_code :=
                   DatabaseReturnCode.DATABASE_QUERY_ERROR |}
  /\ @where_clause (-42) = "scaled_model_id=-42"
  /\ fst (@saveScanCB symbolic Samples.catalog (Some [])
            (@Build_SaveScan_Request symbolic
               (@Build_PoseStamped symbolic "camera" ["truth"])
               "/cloud" 18744 "scan.bag" "kinect"))
     = DatabaseReturnCode.SUCCESS.
Proof. repeat split; vm_compute; reflexivity. Qed.

End MoreRuns.
